(** * Crime Assist Bot: the conversation router of [bot.py]

    A shallow embedding of the handlers of [bot.py] ([log_interaction],
    [ask_gemini], [show_main_menu], [start], [button_router],
    [handle_text], [error_handler]) and the properties of the router
    that the specification states.

    Conventions of the model.
    - A Python [str] is a [string]; one [ascii] of the model stands for one
      character of the source string.  Literals are copied from the source.
    - [context.user_data] is a [gmap string pyval], keyed by the literal
      keys the source uses.
    - Handlers are state-passing functions over a [World]: the dictionary
      of the user being served and the chronological [trace] of every
      effect of the handlers, that is every write to the dictionary and
      every call to the outside (chat transport, console, log store,
      generative backend, HTTP).
    - Whatever the outside answers (clock, push outcome, backend replies) is
      read from an [Env] whose oracles take the trace so far, so that every
      sequence of answers is represented by some [Env].
    - An exception is the [Raised] outcome; [try_except] is the source's
      [try: ... except Exception as e: ...].  Calls to the chat transport
      are taken to return normally. *)

From Stdlib Require Import String Ascii List ZArith Lia Bool.
From stdpp Require Import gmap strings list fin_maps.

Local Open Scope string_scope.
Local Open Scope list_scope.

(** ** Python string operations used by the handlers *)

Module PyStr.

(** [str.isspace] on one character (the ASCII part of Python's set). *)
Definition is_space (c : ascii) : bool :=
  let n := nat_of_ascii c in
  ((9 <=? n) && (n <=? 13) || (28 <=? n) && (n <=? 32))%nat.

Definition is_upper (c : ascii) : bool :=
  let n := nat_of_ascii c in ((65 <=? n) && (n <=? 90))%nat.

Definition is_lower (c : ascii) : bool :=
  let n := nat_of_ascii c in ((97 <=? n) && (n <=? 122))%nat.

Definition to_upper (c : ascii) : ascii :=
  if is_lower c then ascii_of_nat (nat_of_ascii c - 32) else c.

Definition to_lower (c : ascii) : ascii :=
  if is_upper c then ascii_of_nat (nat_of_ascii c + 32) else c.

Fixpoint lstrip (s : string) : string :=
  match s with
  | EmptyString => EmptyString
  | String c s' => if is_space c then lstrip s' else s
  end.

Fixpoint rstrip (s : string) : string :=
  match s with
  | EmptyString => EmptyString
  | String c s' =>
      match rstrip s' with
      | EmptyString => if is_space c then EmptyString else String c EmptyString
      | r => String c r
      end
  end.

(** [s.strip()] *)
Definition strip (s : string) : string := rstrip (lstrip s).

(** [s.title()]: a cased character is upper-cased when the previous
    character is not cased, lower-cased otherwise (cased: an ASCII letter). *)
Fixpoint title_from (prev_cased : bool) (s : string) : string :=
  match s with
  | EmptyString => EmptyString
  | String c s' =>
      let cased := is_upper c || is_lower c in
      String (if prev_cased then to_lower c else to_upper c)
             (title_from cased s')
  end.

Definition title (s : string) : string := title_from false s.

(** [s[:n]] *)
Fixpoint take (n : nat) (s : string) : string :=
  match n, s with
  | S n', String c s' => String c (take n' s')
  | _, _ => EmptyString
  end.

(** [s[n:]] *)
Fixpoint drop (n : nat) (s : string) : string :=
  match n, s with
  | S n', String _ s' => drop n' s'
  | _, _ => s
  end.

(** [s.startswith(p)] *)
Definition startswith (s p : string) : bool := String.prefix p s.

(** [s.split(sep, 1)] for a one-character separator: the list has two
    elements when [sep] occurs in [s], one otherwise. *)
Fixpoint split1 (sep : ascii) (s : string) : list string :=
  match s with
  | EmptyString => [EmptyString]
  | String c s' =>
      if Ascii.eqb c sep then [EmptyString; s']
      else match split1 sep s' with
           | hd :: tl => String c hd :: tl
           | [] => [String c EmptyString]
           end
  end.

End PyStr.

(** ** Data model *)

(** The values the handlers keep in [context.user_data] and put in log
    records: topic strings and the constant [True]. *)
Inductive pyval : Type :=
| PStr (s : string)
| PBool (b : bool).

(** Truth value of a Python object in a condition. *)
Definition truthy (v : pyval) : bool :=
  match v with
  | PStr EmptyString => false
  | PStr _ => true
  | PBool b => b
  end.

(** [str(v)], as an f-string renders it. *)
Definition py_str (v : pyval) : string :=
  match v with
  | PStr s => s
  | PBool true => "True"
  | PBool false => "False"
  end.

(** A small dictionary literal, in insertion order. *)
Abbreviation dict := (list (string * pyval)).

(** The record [log_interaction] pushes to the [interactions] collection. *)
Record Entry : Type := mkEntry {
  user_id : Z;
  action : string;
  data : dict;
  timestamp : string
}.

(** An [InlineKeyboardMarkup]: rows of (label, callback_data). *)
Abbreviation keyboard := (list (list (string * string))).

(** What an exception-raising call produces. *)
Inductive outcome (A : Type) : Type :=
| Returned (a : A)
| Raised (e : string).
Arguments Returned {A} a.
Arguments Raised {A} e.

(** The parsed body of the geolocation reply, [requests.get(..).json()].
    A field holds a string or some other JSON value, of which only its
    [str()] rendering matters; a body that is not a JSON object fails any
    [res[key]] with the given [TypeError] text. *)
Inductive jval : Type :=
| JStr (s : string)
| JOther (rendered : string).

Inductive json : Type :=
| JObject (fields : gmap string jval)
| JNotObject (type_error : string).

(** A line printed on the console.  The fallback line of the logger,
    [f"Log: User {user_id} - {action} - {data or {}}"], is kept structured. *)
Inductive console_line : Type :=
| Line (s : string)
| LogLine (uid : Z) (act : string) (d : dict).

(** Every effect of a handler: a write to [context.user_data], or a call
    to the outside with what it got back. *)
Inductive event : Type :=
| ESetItem (key : string) (v : pyval)                  (* user_data[key] = v *)
| EDelItem (key : string)                              (* key removed by pop *)
| EAnswer                                              (* query.answer() *)
| ESendAction (a : string)                             (* chat.send_action *)
| EEditMessageText (text : string) (parse_mode : option string)
                   (markup : option keyboard)          (* query.edit_message_text *)
| EReplyText (text : string) (parse_mode : option string)
             (markup : option keyboard)                (* message.reply_text *)
| EPrint (l : console_line)                            (* print *)
| EPush (e : Entry) (raised : option string)           (* interactions.push *)
| EGenerateContent (model prompt : string) (r : outcome string)
| EHttpGet (url : string) (r : outcome json).          (* requests.get(..).json() *)

(** The outside world.  [firebase_initialized] is the module-level flag set
    once at start-up; the other fields answer one call each, given the
    trace so far. *)
Record Env : Type := mkEnv {
  firebase_initialized : bool;
  utcnow : list event -> string;
  push : list event -> Entry -> option string;
  generate_content : list event -> string -> outcome string;
  requests_get_json : list event -> string -> outcome json
}.

Record World : Type := mkWorld {
  user_data : gmap string pyval;
  trace : list event
}.

(** ** The handler monad: state passing with exceptions *)

Definition M (A : Type) : Type := World -> outcome A * World.

Definition ret {A} (a : A) : M A := fun w => (Returned a, w).

Definition raise {A} (e : string) : M A := fun w => (Raised e, w).

Definition bind {A B} (m : M A) (k : A -> M B) : M B :=
  fun w =>
    match m w with
    | (Returned a, w') => k a w'
    | (Raised e, w') => (Raised e, w')
    end.

(** [try: body  except Exception as e: handler e] *)
Definition try_except {A} (body : M A) (handler : string -> M A) : M A :=
  fun w =>
    match body w with
    | (Returned a, w') => (Returned a, w')
    | (Raised e, w') => handler e w'
    end.

Declare Scope handler_scope.
Delimit Scope handler_scope with handler.
Notation "x <- m ;; k" := (bind m (fun x => k))
  (at level 100, m at next level, right associativity) : handler_scope.
Notation "m ;; k" := (bind m (fun _ => k))
  (at level 100, right associativity) : handler_scope.
Local Open Scope handler_scope.

Definition emit (e : event) : M unit :=
  fun w => (Returned tt, mkWorld (user_data w) (trace w ++ [e])).

Definition history : M (list event) := fun w => (Returned (trace w), w).

(** [key in context.user_data] *)
Definition ud_contains (key : string) : M bool :=
  fun w => (Returned (bool_decide (is_Some (user_data w !! key))), w).

(** [context.user_data.pop(key)] *)
Definition ud_pop (key : string) : M pyval :=
  fun w =>
    match user_data w !! key with
    | Some v =>
        (Returned v, mkWorld (delete key (user_data w)) (trace w ++ [EDelItem key]))
    | None => (Raised ("'" +:+ key +:+ "'"), w)
    end.

(** [context.user_data.pop(key, default)] *)
Definition ud_pop_default (key : string) (default : pyval) : M pyval :=
  fun w =>
    match user_data w !! key with
    | Some v =>
        (Returned v, mkWorld (delete key (user_data w)) (trace w ++ [EDelItem key]))
    | None => (Returned default, w)
    end.

(** [context.user_data[key] = v] *)
Definition ud_set (key : string) (v : pyval) : M unit :=
  fun w =>
    (Returned tt,
     mkWorld (<[key := v]> (user_data w)) (trace w ++ [ESetItem key v])).

Definition print (s : string) : M unit := emit (EPrint (Line s)).

(** ** The handlers of [bot.py] *)

Definition GEMINI_MODEL : string := "models/gemini-1.5-pro-latest".

(** The line feed that the source writes as a backslash followed by n. *)
Definition nl : string := String (ascii_of_nat 10) EmptyString.

Section Handlers.

Variable env : Env.

(** [data or {}] *)
Definition data_or_empty (d : option dict) : dict :=
  match d with
  | Some d => d
  | None => []
  end.

(** [log_interaction(user_id, action, data=None)] *)
Definition log_interaction (uid : Z) (act : string) (d : option dict) : M unit :=
  if negb (firebase_initialized env) then
    emit (EPrint (LogLine uid act (data_or_empty d)))
  else
    h <- history ;;
    let entry := mkEntry uid act (data_or_empty d) (utcnow env h) in
    match push env h entry with
    | None => emit (EPush entry None)
    | Some e =>
        emit (EPush entry (Some e)) ;;
        print ("Logging error: " +:+ e)
    end.

(** [genai.GenerativeModel(..)], [model.generate_content(prompt)] and
    [response.text], taken as one call to the backend: it returns the text or
    raises. *)
Definition model_generate_content (prompt : string) : M string :=
  h <- history ;;
  let r := generate_content env h prompt in
  emit (EGenerateContent GEMINI_MODEL prompt r) ;;
  match r with
  | Returned text => ret text
  | Raised e => raise e
  end.

(** The [prompt] that [ask_gemini] builds: [if topic: ... else: ...], where
    [None] and the empty string are both false. *)
Definition gemini_prompt (question : string) (topic : option pyval) : string :=
  match topic with
  | Some t =>
      if truthy t then
        "Please answer this question about " +:+ py_str t +:+
        " laws and regulations in India:" +:+ nl +:+ nl +:+ question
      else question
  | None => question
  end.

(** [ask_gemini(question, topic=None)] *)
Definition ask_gemini (question : string) (topic : option pyval) : M string :=
  try_except
    (let prompt := gemini_prompt question topic in
     text <- model_generate_content prompt ;;
     ret (PyStr.strip text))
    (fun e =>
       print ("❌ Gemini failed: " +:+ e) ;;
       ret ("❗️ Sorry, FAQ service is temporarily unavailable. Error: " +:+
            PyStr.take 100 e +:+ "...")).

(** The three kinds of update the application registers a handler for:
    the [/start] command, a button press, a text message that is not a
    command.  Each carries [effective_user.id]. *)
Inductive Update : Type :=
| StartCommand (uid : Z)
| CallbackQuery (uid : Z) (choice : string)
| TextMessage (uid : Z) (text : string).

Definition effective_user (u : Update) : Z :=
  match u with
  | StartCommand uid | CallbackQuery uid _ | TextMessage uid _ => uid
  end.

(** [show_main_menu(update, context)] *)
Definition show_main_menu (update : Update) : M unit :=
  let buttons : keyboard :=
    [ [("📚 FAQs", "menu_faq")];
      [("🛠️ Tools", "menu_tools")];
      [("🚨 Emergency", "menu_emergency")] ] in
  let text := "👮 *Crime Assist Bot*" +:+ nl +:+ "Select an option:" in
  match update with
  | CallbackQuery _ _ => emit (EEditMessageText text (Some "Markdown") (Some buttons))
  | _ => emit (EReplyText text (Some "Markdown") (Some buttons))
  end.

(** [start(update, context)] *)
Definition start (update : Update) : M unit :=
  let uid := effective_user update in
  log_interaction uid "start" None ;;
  show_main_menu update.

(** [xs[i]] on a list *)
Definition list_index {A} (xs : list A) (i : nat) : M A :=
  match xs !! i with
  | Some x => ret x
  | None => raise "list index out of range"
  end.

(** [button_router(update, context)], for [update.callback_query] with
    [from_user.id = uid] and [data = choice]. *)
Definition button_router (uid : Z) (choice : string) : M unit :=
  emit EAnswer ;;
  log_interaction uid "button_click" (Some [("choice", PStr choice)]) ;;
  if String.eqb choice "menu_faq" then
    let buttons : keyboard :=
      [ [("Cybercrime", "faq_cyber")];
        [("Fraud", "faq_fraud")];
        [("IPC", "faq_ipc")];
        [("◀️ Back", "back_to_main")] ] in
    emit (EEditMessageText ("❓ *FAQs Menu*" +:+ nl +:+ "Choose a topic:")
                           (Some "Markdown") (Some buttons))
  else if PyStr.startswith choice "faq_" then
    topic <- list_index (PyStr.split1 "_" choice) 1 ;;
    ud_set "faq_topic" (PStr topic) ;;
    emit (EEditMessageText
            ("💬 *" +:+ PyStr.title topic +:+ " FAQ*" +:+ nl +:+
             "Please type your question:")
            (Some "Markdown") None)
  else if String.eqb choice "menu_tools" then
    let buttons : keyboard :=
      [ [("IP Lookup", "tool_ip")];
        [("Hash Check", "tool_hash")];
        [("◀️ Back", "back_to_main")] ] in
    emit (EEditMessageText ("🛠️ *Tools Menu*" +:+ nl +:+ "Choose a tool:")
                           (Some "Markdown") (Some buttons))
  else if String.eqb choice "tool_ip" then
    ud_set "awaiting_ip" (PBool true) ;;
    emit (EEditMessageText "🔎 Please send an IP address:" None None)
  else if String.eqb choice "tool_hash" then
    ud_set "awaiting_hash" (PBool true) ;;
    emit (EEditMessageText "🔑 Please send a file hash:" None None)
  else if String.eqb choice "menu_emergency" then
    let buttons : keyboard := [ [("◀️ Back to Main Menu", "back_to_main")] ] in
    emit (EEditMessageText
            ("🚨 *Emergency Contacts*" +:+ nl +:+
             "• Police: 100" +:+ nl +:+
             "• Women's Helpline: 1091" +:+ nl +:+
             "• Cyber Crime: 1930" +:+ nl +:+
             "• Ambulance: 102")
            (Some "Markdown") (Some buttons))
  else if String.eqb choice "back_to_main" then
    show_main_menu (CallbackQuery uid choice)
  else ret tt.

(** [requests.get(url).json()] *)
Definition requests_get (url : string) : M json :=
  h <- history ;;
  let r := requests_get_json env h url in
  emit (EHttpGet url r) ;;
  match r with
  | Returned j => ret j
  | Raised e => raise e
  end.

(** [res[key]]: a [KeyError] renders as the quoted key. *)
Definition subscript (res : json) (key : string) : M jval :=
  match res with
  | JObject fields =>
      match fields !! key with
      | Some v => ret v
      | None => raise ("'" +:+ key +:+ "'")
      end
  | JNotObject type_error => raise type_error
  end.

(** [str(v)] of a JSON field *)
Definition jval_str (v : jval) : string :=
  match v with
  | JStr s => s
  | JOther rendered => rendered
  end.

(** [v == 'success'] *)
Definition is_success (v : jval) : bool :=
  match v with
  | JStr s => String.eqb s "success"
  | JOther _ => false
  end.

(** The [try] statement of the IP branch of [handle_text], which leaves
    the reply text in [result]. *)
Definition ip_lookup (text : string) : M string :=
  try_except
    (let ip_api := "http://ip-api.com/json/" +:+ text in
     res <- requests_get ip_api ;;
     status <- subscript res "status" ;;
     if is_success status then
       query <- subscript res "query" ;;
       city <- subscript res "city" ;;
       regionName <- subscript res "regionName" ;;
       country <- subscript res "country" ;;
       isp <- subscript res "isp" ;;
       ret ("🌐 IP: " +:+ jval_str query +:+ nl +:+
            "City: " +:+ jval_str city +:+ nl +:+
            "Region: " +:+ jval_str regionName +:+ nl +:+
            "Country: " +:+ jval_str country +:+ nl +:+
            "ISP: " +:+ jval_str isp)
     else
       message <- subscript res "message" ;;
       ret ("⚠️ Error: " +:+ jval_str message))
    (fun e => ret ("❌ Failed to fetch IP info: " +:+ e)).

Definition HASH_RESULT : string :=
  "File hash check: No known threats found (dummy).".

(** [handle_text(update, context)], for a message from [uid] with
    [message.text = raw]. *)
Definition handle_text (uid : Z) (raw : string) : M unit :=
  let text := PyStr.strip raw in
  emit (ESendAction "typing") ;;
  has_topic <- ud_contains "faq_topic" ;;
  if (has_topic : bool) then
    topic <- ud_pop "faq_topic" ;;
    log_interaction uid "faq_question"
      (Some [("topic", topic); ("question", PStr text)]) ;;
    emit (EReplyText "🔍 Searching for answer..." None None) ;;
    answer <- ask_gemini text (Some topic) ;;
    log_interaction uid "faq_answer"
      (Some [("topic", topic); ("answer", PStr answer)]) ;;
    emit (EReplyText answer None (Some [ [("📚 Back to FAQs", "menu_faq")] ]))
  else
    awaiting_ip <- ud_pop_default "awaiting_ip" (PBool false) ;;
    if truthy awaiting_ip then
      log_interaction uid "ip_query" (Some [("ip", PStr text)]) ;;
      result <- ip_lookup text ;;
      log_interaction uid "ip_result" (Some [("result", PStr result)]) ;;
      emit (EReplyText result None (Some [ [("🛠️ Back to Tools", "menu_tools")] ]))
    else
      awaiting_hash <- ud_pop_default "awaiting_hash" (PBool false) ;;
      if truthy awaiting_hash then
        log_interaction uid "hash_query" (Some [("hash", PStr text)]) ;;
        let result := HASH_RESULT in
        log_interaction uid "hash_result" (Some [("result", PStr result)]) ;;
        emit (EReplyText result None (Some [ [("🛠️ Back to Tools", "menu_tools")] ]))
      else
        log_interaction uid "general_question" (Some [("question", PStr text)]) ;;
        emit (EReplyText "🔍 Looking for an answer..." None None) ;;
        answer <- ask_gemini text None ;;
        log_interaction uid "general_answer" (Some [("answer", PStr answer)]) ;;
        emit (EReplyText answer None (Some [ [("🏠 Main Menu", "back_to_main")] ])).

(** [error_handler(update, context)], with [err = str(context.error)].
    The handler is given whatever the library was processing when the
    exception occurred: [update] is [None] when there was no update, and
    [Some effective_user] for an update, whose [effective_user] is itself
    [None] when the update has no user (a channel post, a poll) and
    [Some user_id] otherwise.  The guard [update and update.effective_user]
    lets only the last case through. *)
Definition error_handler (update : option (option Z)) (err : string) : M unit :=
  print ("Error: " +:+ err) ;;
  match update with
  | Some (Some user_id) =>
      log_interaction user_id "error" (Some [("error_message", PStr err)])
  | Some None | None => ret tt
  end.

(** *** The application: one dictionary per user id

    [ApplicationBuilder] keeps a [user_data] dictionary per user id,
    created empty at the first update from that user, and hands the one of
    [effective_user] to the handler as [context.user_data]; an exception
    that leaves a handler goes to [error_handler] with the update, which for
    the three kinds handled here has a user. *)

Record App : Type := mkApp {
  users : gmap Z (gmap string pyval);
  app_trace : list event
}.

Definition initial_app : App := mkApp ∅ [].

Definition user_data_of (a : App) (uid : Z) : gmap string pyval :=
  default ∅ (users a !! uid).

(** The handler [main] registers for each kind of update. *)
Definition handler_for (u : Update) : M unit :=
  match u with
  | StartCommand _ => start u
  | CallbackQuery uid choice => button_router uid choice
  | TextMessage uid text => handle_text uid text
  end.

Definition process_update (a : App) (u : Update) : App :=
  let uid := effective_user u in
  let w := mkWorld (user_data_of a uid) (app_trace a) in
  let w' :=
    match handler_for u w with
    | (Returned _, w1) => w1
    | (Raised e, w1) => snd (error_handler (Some (Some uid)) e w1)
    end in
  mkApp (<[uid := user_data w']> (users a)) (trace w').

Definition run (a : App) (us : list Update) : App :=
  fold_left process_update us a.

End Handlers.

(** ** Observations on user states and traces *)

(** The three pending flags of the specification's [UserState], read off
    the dictionary: the topic is pending when its key is present, a tool flag
    when its key holds a true value. *)
Record UserState : Type := mkUserState {
  pendingFaqTopic : option pyval;
  awaitingIp : bool;
  awaitingHash : bool
}.

Definition flag_set (ud : gmap string pyval) (key : string) : bool :=
  match ud !! key with
  | Some v => truthy v
  | None => false
  end.

Definition user_state (ud : gmap string pyval) : UserState :=
  mkUserState (ud !! "faq_topic") (flag_set ud "awaiting_ip")
              (flag_set ud "awaiting_hash").

Definition pending_count (s : UserState) : nat :=
  (if pendingFaqTopic s is Some _ then 1 else 0) +
  (if awaitingIp s then 1 else 0) +
  (if awaitingHash s then 1 else 0).

(** The tokens some branch of [button_router] answers to. *)
Definition recognized (choice : string) : bool :=
  String.eqb choice "menu_faq" || PyStr.startswith choice "faq_" ||
  String.eqb choice "menu_tools" || String.eqb choice "tool_ip" ||
  String.eqb choice "tool_hash" || String.eqb choice "menu_emergency" ||
  String.eqb choice "back_to_main".

(** The tokens that only render a menu. *)
Definition is_menu (choice : string) : bool :=
  String.eqb choice "menu_faq" || String.eqb choice "menu_tools" ||
  String.eqb choice "menu_emergency" || String.eqb choice "back_to_main".

(** The events a handler run added to the trace. *)
Definition appended (w w' : World) : list event :=
  drop (length (trace w)) (trace w').

(** A log record is what [log_interaction] was given: user, action, data.
    It is handed to the store through [push], or printed on the console when
    the store was not initialised.  A push that raises still counts as a
    record here; [stored] below keeps only the entries the store accepted. *)
Abbreviation log_record := (Z * string * dict)%type.

Definition logged (e : event) : option log_record :=
  match e with
  | EPush en _ => Some (user_id en, action en, data en)
  | EPrint (LogLine uid act d) => Some (uid, act, d)
  | _ => None
  end.

Definition log_records (evs : list event) : list log_record := omap logged evs.

Definition log_actions (evs : list event) : list string :=
  (fun r : log_record => snd (fst r)) <$> log_records evs.

(** The entries the store accepted. *)
Definition stored_entry (e : event) : option Entry :=
  match e with
  | EPush en None => Some en
  | _ => None
  end.

Definition stored (evs : list event) : list Entry := omap stored_entry evs.

(** The messages shown to the user: the text of each [reply_text] and
    [edit_message_text]. *)
Definition reply_of (e : event) : option string :=
  match e with
  | EEditMessageText text _ _ | EReplyText text _ _ => Some text
  | _ => None
  end.

Definition replies (evs : list event) : list string := omap reply_of evs.

(** The calls to the two backends. *)
Inductive backend_call : Type :=
| GenerateCall (prompt : string)
| HttpCall (url : string).

Definition backend_of (e : event) : option backend_call :=
  match e with
  | EGenerateContent _ prompt _ => Some (GenerateCall prompt)
  | EHttpGet url _ => Some (HttpCall url)
  | _ => None
  end.

Definition backend_calls (evs : list event) : list backend_call :=
  omap backend_of evs.

(** The record every button press is logged with. *)
Definition click_record (uid : Z) (choice : string) : log_record :=
  (uid, "button_click", [("choice", PStr choice)]).

(** ** What each helper adds to the trace *)

Section Traces.

Variable env : Env.

(** The events of one [log_interaction] call made after history [h]. *)
Definition log_events (h : list event) (uid : Z) (act : string)
    (d : option dict) : list event :=
  if negb (firebase_initialized env) then
    [EPrint (LogLine uid act (data_or_empty d))]
  else
    let entry := mkEntry uid act (data_or_empty d) (utcnow env h) in
    match push env h entry with
    | None => [EPush entry None]
    | Some e => [EPush entry (Some e); EPrint (Line ("Logging error: " +:+ e))]
    end.

(** The degraded reply of [ask_gemini] for the exception text [e]. *)
Definition degraded_message (e : string) : string :=
  "❗️ Sorry, FAQ service is temporarily unavailable. Error: " +:+
  PyStr.take 100 e +:+ "...".

(** The string [ask_gemini] returns, and the events it adds, after [h]. *)
Definition gemini_reply (h : list event) (question : string)
    (topic : option pyval) : string :=
  match generate_content env h (gemini_prompt question topic) with
  | Returned text => PyStr.strip text
  | Raised e => degraded_message e
  end.

Definition gemini_events (h : list event) (question : string)
    (topic : option pyval) : list event :=
  let prompt := gemini_prompt question topic in
  let r := generate_content env h prompt in
  EGenerateContent GEMINI_MODEL prompt r ::
  match r with
  | Returned _ => []
  | Raised e => [EPrint (Line ("❌ Gemini failed: " +:+ e))]
  end.

(** The reply text the IP branch computes after [h]. *)
Definition ip_reply (h : list event) (text : string) : string :=
  match fst (ip_lookup env text (mkWorld ∅ h)) with
  | Returned result => result
  | Raised e => e
  end.

Definition ip_url (text : string) : string := "http://ip-api.com/json/" +:+ text.

Definition ip_events (h : list event) (text : string) : list event :=
  [EHttpGet (ip_url text) (requests_get_json env h (ip_url text))].

End Traces.

Arguments log_events : simpl never.
Arguments gemini_events : simpl never.
Arguments gemini_reply : simpl never.
Arguments ip_events : simpl never.
Arguments ip_reply : simpl never.

(** The keys of [context.user_data] a run wrote to. *)
Definition write_of (e : event) : option string :=
  match e with
  | ESetItem key _ | EDelItem key => Some key
  | _ => None
  end.

Definition writes (evs : list event) : list string := omap write_of evs.

Definition entry_record (en : Entry) : log_record :=
  (user_id en, action en, data en).

(** The state after the pending flag of highest priority is consumed. *)
Definition consume_flag (s : UserState) : UserState :=
  match pendingFaqTopic s with
  | Some _ => mkUserState None (awaitingIp s) (awaitingHash s)
  | None =>
      if awaitingIp s then mkUserState None false (awaitingHash s)
      else mkUserState None false false
  end.

(** The generic failure string of the IP branch, around the exception text. *)
Definition ip_failure (e : string) : string := "❌ Failed to fetch IP info: " +:+ e.

(** What [context.user_data.pop(key, default)] adds to the trace. *)
Definition pop_default_events (ud : gmap string pyval) (key : string) : list event :=
  match ud !! key with
  | Some _ => [EDelItem key]
  | None => []
  end.

(** The branch of [button_router] taken for [choice]: the dictionary it
    leaves and the events that follow the click record. *)
Inductive routed (choice : string) (ud : gmap string pyval) :
    gmap string pyval -> list event -> Prop :=
| routed_menu text mode kb :
    is_menu choice = true ->
    routed choice ud ud [EEditMessageText text mode kb]
| routed_faq :
    PyStr.startswith choice "faq_" = true ->
    let topic := PyStr.drop 4 choice in
    routed choice ud (<["faq_topic" := PStr topic]> ud)
      [ESetItem "faq_topic" (PStr topic);
       EEditMessageText
         ("💬 *" +:+ PyStr.title topic +:+ " FAQ*" +:+ nl +:+
          "Please type your question:") (Some "Markdown") None]
| routed_tool_ip :
    choice = "tool_ip" ->
    routed choice ud (<["awaiting_ip" := PBool true]> ud)
      [ESetItem "awaiting_ip" (PBool true);
       EEditMessageText "🔎 Please send an IP address:" None None]
| routed_tool_hash :
    choice = "tool_hash" ->
    routed choice ud (<["awaiting_hash" := PBool true]> ud)
      [ESetItem "awaiting_hash" (PBool true);
       EEditMessageText "🔑 Please send a file hash:" None None]
| routed_unrecognized :
    recognized choice = false ->
    routed choice ud ud [].

(** The records, backend calls, replies and final dictionary of a run of
    [handle_text], by the branch the dictionary selects. *)
Definition text_run_shows (uid : Z) (text : string) (ud ud' : gmap string pyval)
    (evs : list event) (answer : string) : Prop :=
  match ud !! "faq_topic" with
  | Some topic =>
      log_records evs =
        [(uid, "faq_question", [("topic", topic); ("question", PStr text)]);
         (uid, "faq_answer", [("topic", topic); ("answer", PStr answer)])] /\
      backend_calls evs = [GenerateCall (gemini_prompt text (Some topic))] /\
      replies evs = ["🔍 Searching for answer..."; answer] /\
      ud' = delete "faq_topic" ud
  | None =>
      if flag_set ud "awaiting_ip" then
        log_records evs =
          [(uid, "ip_query", [("ip", PStr text)]);
           (uid, "ip_result", [("result", PStr answer)])] /\
        backend_calls evs = [HttpCall (ip_url text)] /\
        replies evs = [answer] /\
        ud' = delete "awaiting_ip" ud
      else if flag_set ud "awaiting_hash" then
        log_records evs =
          [(uid, "hash_query", [("hash", PStr text)]);
           (uid, "hash_result", [("result", PStr answer)])] /\
        backend_calls evs = [] /\
        replies evs = [answer] /\ answer = HASH_RESULT /\
        ud' = delete "awaiting_hash" (delete "awaiting_ip" ud)
      else
        log_records evs =
          [(uid, "general_question", [("question", PStr text)]);
           (uid, "general_answer", [("answer", PStr answer)])] /\
        backend_calls evs = [GenerateCall text] /\
        replies evs = ["🔍 Looking for an answer..."; answer] /\
        ud' = delete "awaiting_hash" (delete "awaiting_ip" ud)
  end.

(** ** Concrete environments and worlds *)

(** A store that accepts every push, a generative backend that answers, a
    geolocation service that rejects the address. *)
Definition healthy_env : Env :=
  mkEnv true
        (fun _ => "2024-05-01T10:00:00+00:00")
        (fun _ _ => None)
        (fun _ _ => Returned "A Ponzi scheme pays old investors with new money. ")
        (fun _ _ => Returned (JObject {[ "status" := JStr "fail";
                                          "message" := JStr "invalid query";
                                          "query" := JStr "not-an-ip" ]})).

(** A store whose pushes raise, and backends that are down. *)
Definition failing_env : Env :=
  mkEnv true
        (fun _ => "2024-05-01T10:00:00+00:00")
        (fun _ _ => Some "permission denied")
        (fun _ _ => Raised "429 quota exceeded")
        (fun _ _ => Raised "connection refused").

Definition fresh_world : World := mkWorld ∅ [].

(** User 1 after pressing [faq_cyber] and then [tool_ip]. *)
Definition two_clicks : App :=
  run healthy_env initial_app
      [CallbackQuery 1 "faq_cyber"; CallbackQuery 1 "tool_ip"].

Definition two_flags_world : World :=
  mkWorld (user_data_of two_clicks 1) (app_trace two_clicks).

(** A new user right after pressing [tool_ip]. *)
Definition ip_pending_world : World :=
  snd (button_router healthy_env 1 "tool_ip" fresh_world).

(** ** Further observations *)

(** The callback tokens on the keyboards a run rendered. *)
Definition tokens_of (e : event) : list string :=
  match e with
  | EEditMessageText _ _ (Some kb) | EReplyText _ _ (Some kb) => snd <$> concat kb
  | _ => []
  end.

Definition rendered_tokens (evs : list event) : list string :=
  concat (tokens_of <$> evs).

(** The calls to [push], with the exception text when the call raised. *)
Definition push_of (e : event) : option (Entry * option string) :=
  match e with
  | EPush en r => Some (en, r)
  | _ => None
  end.

Definition push_attempts (evs : list event) : list (Entry * option string) :=
  omap push_of evs.

(** The records printed by the console fallback of [log_interaction]. *)
Definition console_record_of (e : event) : option log_record :=
  match e with
  | EPrint (LogLine uid act d) => Some (uid, act, d)
  | _ => None
  end.

Definition console_records (evs : list event) : list log_record :=
  omap console_record_of evs.

(** The plain lines printed on the console. *)
Definition printed_of (e : event) : option string :=
  match e with
  | EPrint (Line s) => Some s
  | _ => None
  end.

Definition printed (evs : list event) : list string := omap printed_of evs.

(** The two log actions of the branch of [handle_text] a state selects. *)
Definition actions_for (s : UserState) : list string :=
  match pendingFaqTopic s with
  | Some _ => ["faq_question"; "faq_answer"]
  | None =>
      if awaitingIp s then ["ip_query"; "ip_result"]
      else if awaitingHash s then ["hash_query"; "hash_result"]
      else ["general_question"; "general_answer"]
  end.

(** The callback token of the one button under the final reply of
    [handle_text], by the branch a state selects. *)
Definition return_token_for (s : UserState) : string :=
  match pendingFaqTopic s with
  | Some _ => "menu_faq"
  | None =>
      if awaitingIp s || awaitingHash s then "menu_tools" else "back_to_main"
  end.

(** The tokens on the keyboard [button_router] renders for [choice]. *)
Definition tokens_rendered_for (choice : string) : list string :=
  if String.eqb choice "menu_faq" then
    ["faq_cyber"; "faq_fraud"; "faq_ipc"; "back_to_main"]
  else if PyStr.startswith choice "faq_" then []
  else if String.eqb choice "menu_tools" then
    ["tool_ip"; "tool_hash"; "back_to_main"]
  else if String.eqb choice "menu_emergency" then ["back_to_main"]
  else if String.eqb choice "back_to_main" then
    ["menu_faq"; "menu_tools"; "menu_emergency"]
  else [].

(** ** The validation script [test_gemini.py] *)

Module Validation.

(** A value of the result dictionary of [validate_gemini_api_key]. *)
Inductive rval : Type :=
| RBool (b : bool)
| RStr (s : string)
| RNone.

(** [str(v)], as an f-string renders it. *)
Definition rval_str (v : rval) : string :=
  match v with
  | RBool true => "True"
  | RBool false => "False"
  | RStr s => s
  | RNone => "None"
  end.

Abbreviation rdict := (list (string * rval)).

(** [d.get(key)] as an option; [d[key]] raises when it is [None]. *)
Fixpoint dict_get (key : string) (d : rdict) : option rval :=
  match d with
  | [] => None
  | (k, v) :: d' => if String.eqb k key then Some v else dict_get key d'
  end.

(** Every call the script makes to the outside, with what it got back.
    [VListModels] holds the names the generator yielded and the exception
    that ended the iteration, if any. *)
Inductive vevent : Type :=
| VPrint (s : string)
| VConfigure (raised : option string)
| VListModels (r : outcome (list string * option string))
| VGenerate (model prompt : string) (r : outcome string)
| VInitializeApp (database_url : option string) (raised : option string)
| VFirestoreSet (model response : rval) (raised : option string).

(** The process environment and the services, each answering one call
    given the trace so far.  [firebase_apps] is whether
    [firebase_admin._apps] is non-empty. *)
Record VEnv : Type := mkVEnv {
  GEMINI_API_KEY : option string;
  FIREBASE_DATABASE_URL : option string;
  firebase_apps : list vevent -> bool;
  initialize_app : list vevent -> option string;
  configure : list vevent -> option string;
  list_models : list vevent -> outcome (list string * option string);
  generate : list vevent -> string -> string -> outcome string;
  firestore_set : list vevent -> option string
}.

(** The truth value of an environment variable: unset and empty are false. *)
Definition is_set (v : option string) : bool :=
  match v with
  | Some (String _ _) => true
  | _ => false
  end.

(** [s.lower()] on ASCII letters and [needle in hay]. *)
Fixpoint lower (s : string) : string :=
  match s with
  | EmptyString => EmptyString
  | String c s' => String (PyStr.to_lower c) (lower s')
  end.

Fixpoint contains (needle hay : string) : bool :=
  String.prefix needle hay ||
  match hay with
  | EmptyString => false
  | String _ hay' => contains needle hay'
  end.

(** State passing over the trace, with exceptions. *)
Definition VM (A : Type) : Type := list vevent -> outcome A * list vevent.

Definition vret {A} (a : A) : VM A := fun h => (Returned a, h).

Definition vraise {A} (e : string) : VM A := fun h => (Raised e, h).

Definition vbind {A B} (m : VM A) (k : A -> VM B) : VM B :=
  fun h =>
    match m h with
    | (Returned a, h') => k a h'
    | (Raised e, h') => (Raised e, h')
    end.

Definition vtry {A} (body : VM A) (handler : string -> VM A) : VM A :=
  fun h =>
    match body h with
    | (Returned a, h') => (Returned a, h')
    | (Raised e, h') => handler e h'
    end.

Declare Scope script_scope.
Delimit Scope script_scope with script.
Notation "x <- m ;; k" := (vbind m (fun x => k))
  (at level 100, m at next level, right associativity) : script_scope.
Notation "m ;; k" := (vbind m (fun _ => k))
  (at level 100, right associativity) : script_scope.
Local Open Scope script_scope.

Definition vemit (e : vevent) : VM unit := fun h => (Returned tt, h ++ [e]).

Definition vprint (s : string) : VM unit := vemit (VPrint s).

Section Script.

Variable env : VEnv.

(** [genai.configure(api_key=GEMINI_API_KEY)] *)
Definition genai_configure : VM unit :=
  fun h =>
    match configure env h with
    | None => (Returned tt, h ++ [VConfigure None])
    | Some e => (Raised e, h ++ [VConfigure (Some e)])
    end.

(** [for model in models: print(f"- {model.name}"); available.append(..)] *)
Fixpoint print_names (names : list string) : VM unit :=
  match names with
  | [] => vret tt
  | name :: names' => vprint ("- " +:+ name) ;; print_names names'
  end.

(** [list_available_models()] *)
Definition list_available_models : VM (list string) :=
  vtry
    (vprint "Listing available models..." ;;
     genai_configure ;;
     fun h =>
       let r := list_models env h in
       match r with
       | Raised e => (Raised e, h ++ [VListModels r])
       | Returned (names, stop) =>
           (vprint "Available models:" ;;
            print_names names ;;
            match stop with
            | None => vret names
            | Some e => vraise e
            end) (h ++ [VListModels r])
       end)
    (fun e =>
       vprint ("Error listing models: " +:+ e) ;;
       vret []).

(** What [list_available_models] returns when run after [h]. *)
Definition listed_after (h : list vevent) : list string :=
  let h1 := h ++ [VPrint "Listing available models..."] in
  match configure env h1 with
  | Some _ => []
  | None =>
      match list_models env (h1 ++ [VConfigure None]) with
      | Returned (names, None) => names
      | _ => []
      end
  end.

(** The model names tried when listing gives nothing. *)
Definition FALLBACK_MODELS : list string :=
  ["gemini-pro"; "gemini-1.0-pro"; "gemini-1.5-pro"; "gemini-1.5-flash";
   "models/gemini-pro"].

Definition TEST_PROMPT : string :=
  "Respond with 'API key is valid' if you receive this message.".

(** [genai.GenerativeModel(name)], [model.generate_content(prompt)] and
    [response.text], taken as one call: it returns the text or raises. *)
Definition generate_text (name prompt : string) : VM string :=
  fun h =>
    let r := generate env h name prompt in
    match r with
    | Returned text => (Returned text, h ++ [VGenerate name prompt r])
    | Raised e => (Raised e, h ++ [VGenerate name prompt r])
    end.

(** The loop [for model_name in models_to_try] of
    [validate_gemini_api_key] and what follows it, with the running
    [last_error]. *)
Fixpoint try_models (models : list string) (last_error : option string)
    : VM rdict :=
  match models with
  | [] =>
      vprint "Could not find a working model with your API key." ;;
      vret [("success", RBool false);
            ("message", RStr "API key validation failed with all models");
            ("error", match last_error with Some e => RStr e | None => RNone end)]
  | model_name :: rest =>
      fun h =>
        match
          (vprint ("Trying model: " +:+ model_name) ;;
           text <- generate_text model_name TEST_PROMPT ;;
           vprint ("API Test Response: " +:+ text) ;;
           vprint ("Gemini API key is valid and working correctly with model: "
                   +:+ model_name) ;;
           vret [("success", RBool true);
                 ("message", RStr "API key is valid");
                 ("model", RStr model_name);
                 ("response", RStr text)]) h
        with
        | (Returned d, h') => (Returned d, h')
        | (Raised e, h') =>
            (vprint ("Failed with model " +:+ model_name +:+ ": " +:+ e) ;;
             try_models rest (Some e)) h'
        end
  end.

(** [validate_gemini_api_key(model_name=None)] *)
Definition validate_gemini_api_key (model_name : option string) : VM rdict :=
  vtry
    (if negb (is_set (GEMINI_API_KEY env)) then
       vprint "Error: GEMINI_API_KEY environment variable is not set" ;;
       vret [("success", RBool false);
             ("message", RStr "API key not found in environment variables");
             ("error", RStr "Missing GEMINI_API_KEY")]
     else
       vprint "Attempting to validate Gemini API key..." ;;
       genai_configure ;;
       models_to_try <-
         match model_name with
         | Some (String c name) => vret [String c name]
         | _ =>
             available_models <- list_available_models ;;
             match available_models with
             | _ :: _ => vret available_models
             | [] => vret FALLBACK_MODELS
             end
         end ;;
       try_models models_to_try None)
    (fun error_message =>
       vprint ("Error validating Gemini API key: " +:+ error_message) ;;
       (if contains "api key not valid" (lower error_message)
           || contains "invalid" (lower error_message)
           || contains "unauthorized" (lower error_message)
        then vprint
               "Your API key appears to be invalid or has insufficient permissions."
        else vret tt) ;;
       vret [("success", RBool false);
             ("message", RStr "API key validation failed");
             ("error", RStr error_message)]).

(** The names [check_environment_variables] finds missing, in its order. *)
Definition missing_vars : list string :=
  (if is_set (GEMINI_API_KEY env) then [] else ["GEMINI_API_KEY"]) ++
  (if is_set (FIREBASE_DATABASE_URL env) then [] else ["FIREBASE_DATABASE_URL"]).

(** [check_environment_variables()] *)
Definition check_environment_variables : VM bool :=
  match missing_vars with
  | _ :: _ =>
      vprint ("Warning: The following environment variables are missing: " +:+
              String.concat ", " missing_vars) ;;
      vret false
  | [] =>
      vprint "All required environment variables are set" ;;
      vret true
  end.

(** [initialize_firebase()] *)
Definition initialize_firebase : VM bool :=
  vtry
    ((fun h =>
        if negb (firebase_apps env h) then
          let url :=
            if is_set (FIREBASE_DATABASE_URL env)
            then FIREBASE_DATABASE_URL env else None in
          match initialize_app env h with
          | None => (Returned tt, h ++ [VInitializeApp url None])
          | Some e => (Raised e, h ++ [VInitializeApp url (Some e)])
          end
        else (Returned tt, h)) ;;
     vprint "Firebase initialized successfully" ;;
     vret true)
    (fun e =>
       vprint ("Firebase initialization error: " +:+ e) ;;
       vret false).

(** [result.get(key)], where a missing key gives [None]. *)
Definition get_or_none (key : string) (d : rdict) : rval :=
  match dict_get key d with
  | Some v => v
  | None => RNone
  end.

(** [firestore.client()] and
    [db.collection('api_validations').document('gemini_api').set({...})],
    taken as one call: it returns or raises. *)
Definition store_result (result : rdict) : VM unit :=
  fun h =>
    let model := get_or_none "model" result in
    let response := get_or_none "response" result in
    match firestore_set env h with
    | None => (Returned tt, h ++ [VFirestoreSet model response None])
    | Some e => (Raised e, h ++ [VFirestoreSet model response (Some e)])
    end.

(** [result[key]] *)
Definition dict_item (key : string) (d : rdict) : VM rval :=
  match dict_get key d with
  | Some v => vret v
  | None => vraise ("'" +:+ key +:+ "'")
  end.

Definition truthy_rval (v : rval) : bool :=
  match v with
  | RBool b => b
  | RStr (String _ _) => true
  | _ => false
  end.

(** [main()] *)
Definition main : VM unit :=
  env_check <- check_environment_variables ;;
  if negb env_check then
    vprint "Please set all required environment variables before running this script"
  else
    firebase_initialized <- initialize_firebase ;;
    available_models <- list_available_models ;;
    result <- validate_gemini_api_key None ;;
    success <- dict_item "success" result ;;
    if truthy_rval success then
      message <- dict_item "message" result ;;
      vprint ("Validation successful: " +:+ rval_str message +:+ " with model " +:+
              rval_str (get_or_none "model" result)) ;;
      if (firebase_initialized : bool) then
        vtry
          (store_result result ;;
           vprint "Validation result stored in Firebase")
          (fun e => vprint ("Failed to store result in Firebase: " +:+ e))
      else vret tt
    else
      vprint ("Validation failed: " +:+
              rval_str (match dict_get "error" result with
                        | Some v => v
                        | None => RStr "Unknown error"
                        end)) ;;
      vprint (nl +:+ "Possible issues:") ;;
      vprint "1. Your API key might not have access to Gemini models" ;;
      vprint "2. The Gemini API naming convention might have changed" ;;
      vprint "3. The Gemini API might not be enabled for your project" ;;
      vprint "4. You might need to enable billing for your Google Cloud project" ;;
      vprint (nl +:+ "Suggested actions:") ;;
      vprint "1. Check the Google Cloud Console to ensure the Generative Language API is enabled" ;;
      vprint "2. Verify the API key has appropriate permissions" ;;
      vprint "3. Try creating a new API key in the Google Cloud Console".

End Script.

(** *** Observations on a run of the script *)

(** The models tried, each with the outcome of its test request. *)
Definition attempt_of (e : vevent) : option (string * outcome string) :=
  match e with
  | VGenerate name _ r => Some (name, r)
  | _ => None
  end.

Definition attempts (h : list vevent) : list (string * outcome string) :=
  omap attempt_of h.

(** The calls that reach a service (anything but a print). *)
Definition is_call (e : vevent) : bool :=
  match e with
  | VPrint _ => false
  | _ => true
  end.

Definition calls (h : list vevent) : list vevent := List.filter is_call h.

Definition firestore_write_of (e : vevent) : option (rval * rval) :=
  match e with
  | VFirestoreSet model response _ => Some (model, response)
  | _ => None
  end.

Definition firestore_writes (h : list vevent) : list (rval * rval) :=
  omap firestore_write_of h.

(** The exception texts of the failed [initialize_app] calls. *)
Definition init_failure_of (e : vevent) : option string :=
  match e with
  | VInitializeApp _ (Some err) => Some err
  | _ => None
  end.

Definition init_failures (h : list vevent) : list string := omap init_failure_of h.

Definition failed (a : string * outcome string) : Prop :=
  match snd a with
  | Raised _ => True
  | Returned _ => False
  end.

(** The two shapes of a result dictionary. *)
Definition success_result (name text : string) : rdict :=
  [("success", RBool true); ("message", RStr "API key is valid");
   ("model", RStr name); ("response", RStr text)].

Definition failure_result (message : string) (error : rval) : rdict :=
  [("success", RBool false); ("message", RStr message); ("error", error)].

Definition error_value (last_error : option string) : rval :=
  match last_error with
  | Some e => RStr e
  | None => RNone
  end.

(** The loop of [validate_gemini_api_key] as a relation between the models
    to try, the running [last_error], the attempts made and the result. *)
Inductive tried : list string -> option string ->
    list (string * outcome string) -> rdict -> Prop :=
| tried_none last_error :
    tried [] last_error []
      (failure_result "API key validation failed with all models"
                      (error_value last_error))
| tried_works name rest last_error text :
    tried (name :: rest) last_error [(name, Returned text)]
      (success_result name text)
| tried_next name rest last_error e att d :
    tried rest (Some e) att d ->
    tried (name :: rest) last_error ((name, Raised e) :: att) d.

(** An event other than a call to [firebase_admin.initialize_app]. *)
Definition no_initialize (e : vevent) : Prop := forall u r, e <> VInitializeApp u r.

(** The events a run added to the trace. *)
Definition added (h h' : list vevent) : list vevent := drop (length h) h'.

(** The models [validate_gemini_api_key] is about to try, given the names
    [list_available_models] returned. *)
Definition models_to_try (model_name : option string) (listed : list string)
    : list string :=
  match model_name with
  | Some (String c name) => [String c name]
  | _ => match listed with _ :: _ => listed | [] => FALLBACK_MODELS end
  end.

End Validation.

(** The text and the callback tokens of the main menu. *)
Definition MAIN_MENU_TEXT : string :=
  "👮 *Crime Assist Bot*" +:+ nl +:+ "Select an option:".

Definition MAIN_MENU_TOKENS : list string :=
  ["menu_faq"; "menu_tools"; "menu_emergency"].

(** An event that is not a log event of any kind. *)
Definition log_free (e : event) : Prop :=
  push_of e = None /\ console_record_of e = None /\ logged e = None /\
  stored_entry e = None.

(** The events of a handler run: [log_interaction] calls with other events
    in between. *)
Inductive interleaved (env : Env) : list event -> nat -> Prop :=
| interleaved_nil : interleaved env [] 0
| interleaved_other e evs n :
    log_free e -> interleaved env evs n -> interleaved env (e :: evs) n
| interleaved_log h uid act d evs n :
    interleaved env evs n ->
    interleaved env (log_events env h uid act d ++ evs) (S n).

(** A process that started without the store: [firebase_initialized] is
    false; the backends answer. *)
Definition console_env : Env :=
  mkEnv false
        (fun _ => "2024-05-01T10:00:00+00:00")
        (fun _ _ => Some "never called")
        (fun _ _ => Returned "Report it at cybercrime.gov.in.")
        (fun _ _ => Raised "timed out").

(** A working installation: both variables set, two models listed, of which
    only the second answers. *)
Definition script_env : Validation.VEnv :=
  Validation.mkVEnv
    (Some "AIza-key") (Some "https://crime-assist.firebaseio.com")
    (fun _ => false) (fun _ => None) (fun _ => None)
    (fun _ => Returned (["models/gemini-pro"; "models/gemini-1.5-pro"], None))
    (fun _ name _ =>
       if String.eqb name "models/gemini-1.5-pro" then Returned "API key is valid"
       else Raised "404 model not found")
    (fun _ => None).

(** No API key, and an empty database URL. *)
Definition keyless_env : Validation.VEnv :=
  Validation.mkVEnv
    None (Some "")
    (fun _ => false) (fun _ => None) (fun _ => None)
    (fun _ => Raised "no key") (fun _ _ _ => Raised "no key") (fun _ => None).

(** ** Runs of the helpers *)

Section Runs.

Variable env : Env.

Lemma world_eta (w : World) : mkWorld (user_data w) (trace w) = w.
Proof. by destruct w. Qed.

Lemma emit_run e w :
  emit e w = (Returned tt, mkWorld (user_data w) (trace w ++ [e])).
Proof. reflexivity. Qed.

Lemma bind_run {A B} (m : M A) (k : A -> M B) w a w' :
  m w = (Returned a, w') -> bind m k w = k a w'.
Proof. intros H. unfold bind. by rewrite H. Qed.

Lemma bind_emit {B} e (k : unit -> M B) w :
  bind (emit e) k w = k tt (mkWorld (user_data w) (trace w ++ [e])).
Proof. reflexivity. Qed.

Lemma log_interaction_run uid act d w :
  log_interaction env uid act d w =
  (Returned tt, mkWorld (user_data w) (trace w ++ log_events env (trace w) uid act d)).
Proof.
  unfold log_interaction, log_events.
  destruct (firebase_initialized env); cbn; [|reflexivity].
  unfold bind, history. cbn.
  destruct (push env (trace w) _) as [e|]; cbn; [|reflexivity].
  unfold print, emit; cbn. by rewrite <- app_assoc.
Qed.

Lemma bind_log {B} uid act d (k : unit -> M B) w :
  bind (log_interaction env uid act d) k w =
  k tt (mkWorld (user_data w) (trace w ++ log_events env (trace w) uid act d)).
Proof. apply bind_run, log_interaction_run. Qed.

Lemma ask_gemini_run question topic w :
  ask_gemini env question topic w =
  (Returned (gemini_reply env (trace w) question topic),
   mkWorld (user_data w) (trace w ++ gemini_events env (trace w) question topic)).
Proof.
  unfold ask_gemini, try_except, model_generate_content, gemini_reply,
    gemini_events, degraded_message, bind, history, print, emit.
  cbn.
  destruct (generate_content env (trace w) _) as [text|e]; cbn; [reflexivity|].
  unfold print, emit; cbn. by rewrite <- app_assoc.
Qed.

Lemma bind_gemini {B} question topic (k : string -> M B) w :
  bind (ask_gemini env question topic) k w =
  k (gemini_reply env (trace w) question topic)
    (mkWorld (user_data w) (trace w ++ gemini_events env (trace w) question topic)).
Proof. apply bind_run, ask_gemini_run. Qed.

Lemma ip_lookup_run text w :
  ip_lookup env text w =
  (Returned (ip_reply env (trace w) text),
   mkWorld (user_data w) (trace w ++ ip_events env (trace w) text)).
Proof.
  unfold ip_reply, ip_events, ip_url, ip_lookup, try_except, bind,
    requests_get, history, emit, subscript, ret, raise.
  cbn.
  destruct (requests_get_json env (trace w) _) as [[fields|te]|e]; cbn;
    try reflexivity.
  repeat first
    [ reflexivity
    | match goal with
      | |- context [match ?m !! ?k with _ => _ end] => destruct (m !! k); cbn
      | |- context [if is_success ?v then _ else _] => destruct (is_success v); cbn
      end ].
Qed.

Lemma bind_ip {B} text (k : string -> M B) w :
  bind (ip_lookup env text) k w =
  k (ip_reply env (trace w) text)
    (mkWorld (user_data w) (trace w ++ ip_events env (trace w) text)).
Proof. apply bind_run, ip_lookup_run. Qed.

End Runs.

(** ** Strings *)

Lemma startswith_faq choice :
  PyStr.startswith choice "faq_" = true -> choice = "faq_" +:+ PyStr.drop 4 choice.
Proof.
  unfold PyStr.startswith. intros H.
  do 4 (destruct choice as [|? choice]; [discriminate H|];
        cbn [String.prefix] in H;
        match type of H with
        | context [ascii_dec ?a ?b] => destruct (ascii_dec a b) as [<-|]
        end; [|discriminate H]).
  reflexivity.
Qed.

Lemma startswith_faq_app t : PyStr.startswith ("faq_" +:+ t) "faq_" = true.
Proof. by destruct t. Qed.

Lemma take_length n s : String.length (PyStr.take n s) <= n.
Proof.
  revert s. induction n as [|n IH]; intros [|c s]; cbn; try lia.
  specialize (IH s). lia.
Qed.

Lemma take_drop n s : PyStr.take n s +:+ PyStr.drop n s = s.
Proof.
  revert s. induction n as [|n IH]; intros [|c s]; cbn; try reflexivity.
  change (String c (PyStr.take n s +:+ PyStr.drop n s) = String c s).
  by rewrite IH.
Qed.

(** ** Observations distribute over the pieces of a trace *)

Lemma appended_app w ud evs : appended w (mkWorld ud (trace w ++ evs)) = evs.
Proof. unfold appended. cbn. apply drop_app_length. Qed.

Lemma log_records_app l1 l2 :
  log_records (l1 ++ l2) = log_records l1 ++ log_records l2.
Proof. apply omap_app. Qed.

Lemma stored_app l1 l2 : stored (l1 ++ l2) = stored l1 ++ stored l2.
Proof. apply omap_app. Qed.

Lemma replies_app l1 l2 : replies (l1 ++ l2) = replies l1 ++ replies l2.
Proof. apply omap_app. Qed.

Lemma backend_calls_app l1 l2 :
  backend_calls (l1 ++ l2) = backend_calls l1 ++ backend_calls l2.
Proof. apply omap_app. Qed.

Lemma writes_app l1 l2 : writes (l1 ++ l2) = writes l1 ++ writes l2.
Proof. apply omap_app. Qed.

Section Observed.

Variable env : Env.

Lemma log_records_log_events h uid act d :
  log_records (log_events env h uid act d) = [(uid, act, data_or_empty d)].
Proof.
  unfold log_events. destruct (firebase_initialized env); cbn; [|reflexivity].
  by destruct (push env h _).
Qed.

Lemma replies_log_events h uid act d : replies (log_events env h uid act d) = [].
Proof.
  unfold log_events. destruct (firebase_initialized env); cbn; [|reflexivity].
  by destruct (push env h _).
Qed.

Lemma backend_calls_log_events h uid act d :
  backend_calls (log_events env h uid act d) = [].
Proof.
  unfold log_events. destruct (firebase_initialized env); cbn; [|reflexivity].
  by destruct (push env h _).
Qed.

Lemma writes_log_events h uid act d : writes (log_events env h uid act d) = [].
Proof.
  unfold log_events. destruct (firebase_initialized env); cbn; [|reflexivity].
  by destruct (push env h _).
Qed.

(** With the store initialised and accepting, the record is stored. *)
Lemma stored_log_events h uid act d :
  firebase_initialized env = true ->
  (forall h' en, push env h' en = None) ->
  entry_record <$> stored (log_events env h uid act d) = [(uid, act, data_or_empty d)].
Proof.
  intros Hinit Hpush. unfold log_events. rewrite Hinit. cbn.
  by rewrite Hpush.
Qed.

Lemma log_records_gemini_events h q t : log_records (gemini_events env h q t) = [].
Proof. unfold gemini_events. cbn. by destruct (generate_content env h _). Qed.

Lemma stored_gemini_events h q t : stored (gemini_events env h q t) = [].
Proof. unfold gemini_events. cbn. by destruct (generate_content env h _). Qed.

Lemma replies_gemini_events h q t : replies (gemini_events env h q t) = [].
Proof. unfold gemini_events. cbn. by destruct (generate_content env h _). Qed.

Lemma writes_gemini_events h q t : writes (gemini_events env h q t) = [].
Proof. unfold gemini_events. cbn. by destruct (generate_content env h _). Qed.

Lemma backend_calls_gemini_events h q t :
  backend_calls (gemini_events env h q t) = [GenerateCall (gemini_prompt q t)].
Proof. unfold gemini_events. cbn. by destruct (generate_content env h _). Qed.

End Observed.

Create Rewrite HintDb observe.

#[local] Hint Rewrite log_records_app stored_app replies_app backend_calls_app
  writes_app log_records_log_events replies_log_events
  backend_calls_log_events writes_log_events log_records_gemini_events
  stored_gemini_events replies_gemini_events writes_gemini_events
  backend_calls_gemini_events : observe.

(** Rewrites the observations of a trace built from known pieces. *)
Ltac observe := autorewrite with observe; cbn.

(** ** Symbolic runs of the two routers *)

Lemma split1_faq choice :
  PyStr.startswith choice "faq_" = true ->
  PyStr.split1 "_" choice = ["faq"; PyStr.drop 4 choice].
Proof. intros H. rewrite (startswith_faq _ H) at 1. reflexivity. Qed.

Lemma truthy_default ud key :
  truthy (default (PBool false) (ud !! key)) = flag_set ud key.
Proof. unfold flag_set. by destruct (ud !! key). Qed.

Lemma contains_some {A} (x : A) : bool_decide (is_Some (Some x)) = true.
Proof. by apply bool_decide_eq_true_2. Qed.

Lemma contains_none {A} : bool_decide (is_Some (@None A)) = false.
Proof. apply bool_decide_eq_false_2, is_Some_None. Qed.

Section RouterRuns.

Variable env : Env.

Lemma bind_ud_set {B} key v (k : unit -> M B) w :
  bind (ud_set key v) k w =
  k tt (mkWorld (<[key := v]> (user_data w)) (trace w ++ [ESetItem key v])).
Proof. reflexivity. Qed.

Lemma bind_ud_contains {B} key (k : bool -> M B) w :
  bind (ud_contains key) k w = k (bool_decide (is_Some (user_data w !! key))) w.
Proof. reflexivity. Qed.

Lemma bind_ud_pop {B} key v (k : pyval -> M B) w :
  user_data w !! key = Some v ->
  bind (ud_pop key) k w =
  k v (mkWorld (delete key (user_data w)) (trace w ++ [EDelItem key])).
Proof. intros H. unfold bind, ud_pop. by rewrite H. Qed.

Lemma bind_ud_pop_default {B} key d (k : pyval -> M B) w :
  bind (ud_pop_default key d) k w =
  k (default d (user_data w !! key))
    (mkWorld (delete key (user_data w))
             (trace w ++ pop_default_events (user_data w) key)).
Proof.
  unfold bind, ud_pop_default, pop_default_events.
  destruct (user_data w !! key) eqn:E; cbn; [reflexivity|].
  by rewrite delete_id, app_nil_r, world_eta.
Qed.

(** One statement of a handler run from a known world. *)
Ltac step :=
  first [ rewrite bind_emit | rewrite bind_log | rewrite bind_gemini
        | rewrite bind_ip | rewrite bind_ud_set | rewrite bind_ud_contains
        | rewrite bind_ud_pop_default | rewrite emit_run ];
  cbv beta; cbn [user_data trace].

Lemma button_router_run uid choice w :
  exists h rest ud',
    button_router env uid choice w =
    (Returned tt,
     mkWorld ud'
       (trace w ++ [EAnswer] ++
        log_events env h uid "button_click" (Some [("choice", PStr choice)]) ++
        rest))
    /\ routed choice (user_data w) ud' rest.
Proof.
  unfold button_router. do 2 step.
  destruct (String.eqb choice "menu_faq") eqn:E1.
  { step. eexists _, _, _. split; [by rewrite <- !app_assoc|].
    apply routed_menu. unfold is_menu. by rewrite E1. }
  destruct (PyStr.startswith choice "faq_") eqn:E2.
  { rewrite (split1_faq _ E2). cbn [list_index lookup list_lookup].
    unfold list_index. cbn [lookup list_lookup]. unfold ret at 1.
    rewrite (bind_run _ _ _ _ _ eq_refl). do 2 step.
    eexists _, _, _. split; [by rewrite <- !app_assoc|].
    by apply routed_faq. }
  destruct (String.eqb choice "menu_tools") eqn:E3.
  { step. eexists _, _, _. split; [by rewrite <- !app_assoc|].
    apply routed_menu. unfold is_menu. rewrite E3. by rewrite !orb_true_r. }
  destruct (String.eqb choice "tool_ip") eqn:E4.
  { do 2 step. eexists _, _, _. split; [by rewrite <- !app_assoc|].
    apply routed_tool_ip. by apply String.eqb_eq. }
  destruct (String.eqb choice "tool_hash") eqn:E5.
  { do 2 step. eexists _, _, _. split; [by rewrite <- !app_assoc|].
    apply routed_tool_hash. by apply String.eqb_eq. }
  destruct (String.eqb choice "menu_emergency") eqn:E6.
  { step. eexists _, _, _. split; [by rewrite <- !app_assoc|].
    apply routed_menu. unfold is_menu. rewrite E6. by rewrite !orb_true_r. }
  destruct (String.eqb choice "back_to_main") eqn:E7.
  { unfold show_main_menu. step.
    eexists _, _, _. split; [by rewrite <- !app_assoc|].
    apply routed_menu. unfold is_menu. rewrite E7. by rewrite !orb_true_r. }
  unfold ret. eexists _, [], _. split.
  - rewrite app_nil_r. by rewrite <- !app_assoc.
  - apply routed_unrecognized. unfold recognized.
    by rewrite E1, E2, E3, E4, E5, E6, E7.
Qed.

(** The four branches of [handle_text]. *)

Lemma handle_text_faq_run uid raw w topic :
  user_data w !! "faq_topic" = Some topic ->
  let text := PyStr.strip raw in
  exists h1 h2 h3,
    let answer := gemini_reply env h2 text (Some topic) in
    handle_text env uid raw w =
    (Returned tt,
     mkWorld (delete "faq_topic" (user_data w))
       (trace w ++ [ESendAction "typing"; EDelItem "faq_topic"] ++
        log_events env h1 uid "faq_question"
          (Some [("topic", topic); ("question", PStr text)]) ++
        [EReplyText "🔍 Searching for answer..." None None] ++
        gemini_events env h2 text (Some topic) ++
        log_events env h3 uid "faq_answer"
          (Some [("topic", topic); ("answer", PStr answer)]) ++
        [EReplyText answer None (Some [ [("📚 Back to FAQs", "menu_faq")] ])])).
Proof.
  intros Htopic text. unfold handle_text. fold text. do 2 step.
  rewrite Htopic, contains_some.
  rewrite (bind_ud_pop _ topic) by exact Htopic.
  cbv beta; cbn [user_data trace]. do 5 step.
  eexists _, _, _. cbv zeta. by rewrite <- !app_assoc.
Qed.

Lemma handle_text_ip_run uid raw w :
  user_data w !! "faq_topic" = None ->
  flag_set (user_data w) "awaiting_ip" = true ->
  let text := PyStr.strip raw in
  exists h1 h2 h3,
    let result := ip_reply env h2 text in
    handle_text env uid raw w =
    (Returned tt,
     mkWorld (delete "awaiting_ip" (user_data w))
       (trace w ++ [ESendAction "typing"; EDelItem "awaiting_ip"] ++
        log_events env h1 uid "ip_query" (Some [("ip", PStr text)]) ++
        ip_events env h2 text ++
        log_events env h3 uid "ip_result" (Some [("result", PStr result)]) ++
        [EReplyText result None (Some [ [("🛠️ Back to Tools", "menu_tools")] ])])).
Proof.
  intros Htopic Hip text. unfold handle_text. fold text. do 2 step.
  rewrite Htopic, contains_none. step.
  rewrite truthy_default, Hip. do 4 step.
  unfold pop_default_events. unfold flag_set in Hip.
  destruct (user_data w !! "awaiting_ip"); [|discriminate Hip].
  eexists _, _, _. cbv zeta. by rewrite <- !app_assoc.
Qed.

(** The IP branch again, with the history the request is made in. *)
Lemma handle_text_ip_trace uid raw w :
  user_data w !! "faq_topic" = None ->
  flag_set (user_data w) "awaiting_ip" = true ->
  let text := PyStr.strip raw in
  let popped := [ESendAction "typing"; EDelItem "awaiting_ip"] in
  let before :=
    popped ++
    log_events env (trace w ++ popped) uid "ip_query" (Some [("ip", PStr text)]) in
  let result := ip_reply env (trace w ++ before) text in
  exists h3,
    handle_text env uid raw w =
    (Returned tt,
     mkWorld (delete "awaiting_ip" (user_data w))
       (trace w ++ before ++ ip_events env (trace w ++ before) text ++
        log_events env h3 uid "ip_result" (Some [("result", PStr result)]) ++
        [EReplyText result None (Some [ [("🛠️ Back to Tools", "menu_tools")] ])])).
Proof.
  intros Htopic Hip text popped before result.
  unfold handle_text. fold text. do 2 step.
  rewrite Htopic, contains_none. step.
  rewrite truthy_default, Hip. do 4 step.
  unfold pop_default_events. unfold flag_set in Hip.
  destruct (user_data w !! "awaiting_ip"); [|discriminate Hip].
  eexists. subst result before popped. by rewrite <- !app_assoc.
Qed.

Lemma handle_text_hash_run uid raw w :
  user_data w !! "faq_topic" = None ->
  flag_set (user_data w) "awaiting_ip" = false ->
  flag_set (user_data w) "awaiting_hash" = true ->
  let text := PyStr.strip raw in
  let ud := user_data w in
  exists h1 h3,
    handle_text env uid raw w =
    (Returned tt,
     mkWorld (delete "awaiting_hash" (delete "awaiting_ip" ud))
       (trace w ++ [ESendAction "typing"] ++
        pop_default_events ud "awaiting_ip" ++ [EDelItem "awaiting_hash"] ++
        log_events env h1 uid "hash_query" (Some [("hash", PStr text)]) ++
        log_events env h3 uid "hash_result" (Some [("result", PStr HASH_RESULT)]) ++
        [EReplyText HASH_RESULT None
           (Some [ [("🛠️ Back to Tools", "menu_tools")] ])])).
Proof.
  intros Htopic Hip Hhash text ud. unfold handle_text. fold text. do 2 step.
  rewrite Htopic, contains_none. step.
  rewrite truthy_default, Hip. step.
  rewrite truthy_default.
  assert (flag_set (delete "awaiting_ip" (user_data w)) "awaiting_hash" = true)
    as -> by (unfold flag_set in *; by rewrite lookup_delete_ne).
  do 3 step. fold ud.
  assert (pop_default_events (delete "awaiting_ip" ud) "awaiting_hash"
          = [EDelItem "awaiting_hash"]) as ->.
  { unfold pop_default_events. rewrite lookup_delete_ne by done.
    unfold flag_set in Hhash. fold ud in Hhash.
    by destruct (ud !! "awaiting_hash"). }
  eexists _, _. by rewrite <- !app_assoc.
Qed.

Lemma handle_text_general_run uid raw w :
  user_data w !! "faq_topic" = None ->
  flag_set (user_data w) "awaiting_ip" = false ->
  flag_set (user_data w) "awaiting_hash" = false ->
  let text := PyStr.strip raw in
  let ud := user_data w in
  exists h1 h2 h3,
    let answer := gemini_reply env h2 text None in
    handle_text env uid raw w =
    (Returned tt,
     mkWorld (delete "awaiting_hash" (delete "awaiting_ip" ud))
       (trace w ++ [ESendAction "typing"] ++
        pop_default_events ud "awaiting_ip" ++
        pop_default_events (delete "awaiting_ip" ud) "awaiting_hash" ++
        log_events env h1 uid "general_question" (Some [("question", PStr text)]) ++
        [EReplyText "🔍 Looking for an answer..." None None] ++
        gemini_events env h2 text None ++
        log_events env h3 uid "general_answer" (Some [("answer", PStr answer)]) ++
        [EReplyText answer None (Some [ [("🏠 Main Menu", "back_to_main")] ])])).
Proof.
  intros Htopic Hip Hhash text ud. unfold handle_text. fold text. do 2 step.
  rewrite Htopic, contains_none. step.
  rewrite truthy_default, Hip. step.
  rewrite truthy_default.
  assert (flag_set (delete "awaiting_ip" (user_data w)) "awaiting_hash" = false)
    as -> by (unfold flag_set in *; by rewrite lookup_delete_ne).
  do 5 step. fold ud.
  eexists _, _, _. cbv zeta. by rewrite <- !app_assoc.
Qed.

End RouterRuns.

(** ** The branch [button_router] takes *)

Lemma is_menu_recognized choice : is_menu choice = true -> recognized choice = true.
Proof.
  unfold is_menu, recognized. intros H.
  repeat (apply orb_true_iff in H as [H|H]); rewrite H;
    by rewrite ?orb_true_r.
Qed.

Lemma is_menu_not_faq choice :
  is_menu choice = true -> PyStr.startswith choice "faq_" = false.
Proof.
  unfold is_menu. intros H.
  repeat (apply orb_true_iff in H as [H|H]);
    apply String.eqb_eq in H; by subst.
Qed.

Lemma startswith_faq_recognized choice :
  PyStr.startswith choice "faq_" = true -> recognized choice = true.
Proof. unfold recognized. intros ->. by rewrite orb_true_r. Qed.

Lemma routed_faq_inv choice ud ud' rest :
  PyStr.startswith choice "faq_" = true ->
  routed choice ud ud' rest ->
  ud' = <["faq_topic" := PStr (PyStr.drop 4 choice)]> ud /\
  rest = [ESetItem "faq_topic" (PStr (PyStr.drop 4 choice));
          EEditMessageText
            ("💬 *" +:+ PyStr.title (PyStr.drop 4 choice) +:+ " FAQ*" +:+ nl +:+
             "Please type your question:") (Some "Markdown") None].
Proof.
  intros Hfaq Hr. inversion Hr as [? ? ? Hm| | Hc | Hc | Hu]; subst.
  - apply is_menu_not_faq in Hm. congruence.
  - done.
  - discriminate Hfaq.
  - discriminate Hfaq.
  - apply startswith_faq_recognized in Hfaq. congruence.
Qed.

Lemma routed_tool_ip_inv ud ud' rest :
  routed "tool_ip" ud ud' rest ->
  ud' = <["awaiting_ip" := PBool true]> ud /\
  rest = [ESetItem "awaiting_ip" (PBool true);
          EEditMessageText "🔎 Please send an IP address:" None None].
Proof. intros Hr. by inversion Hr. Qed.

Lemma routed_tool_hash_inv ud ud' rest :
  routed "tool_hash" ud ud' rest ->
  ud' = <["awaiting_hash" := PBool true]> ud /\
  rest = [ESetItem "awaiting_hash" (PBool true);
          EEditMessageText "🔑 Please send a file hash:" None None].
Proof. intros Hr. by inversion Hr. Qed.

Lemma routed_unrecognized_inv choice ud ud' rest :
  recognized choice = false ->
  routed choice ud ud' rest -> ud' = ud /\ rest = [].
Proof.
  intros Hu Hr. inversion Hr as [? ? ? Hm| Hf | Hc | Hc |]; subst; try done.
  - apply is_menu_recognized in Hm. congruence.
  - apply startswith_faq_recognized in Hf. congruence.
Qed.

Lemma routed_observed choice ud ud' rest :
  routed choice ud ud' rest ->
  log_records rest = [] /\
  length (replies rest) = (if recognized choice then 1 else 0).
Proof.
  intros Hr. inversion Hr as [? ? ? Hm| Hf | Hc | Hc | Hu]; subst; cbn.
  - by rewrite (is_menu_recognized _ Hm).
  - by rewrite (startswith_faq_recognized _ Hf).
  - done.
  - done.
  - by rewrite Hu.
Qed.

Lemma button_router_log_records env uid choice w :
  log_records (appended w (snd (button_router env uid choice w))) =
  [click_record uid choice].
Proof.
  destruct (button_router_run env uid choice w) as (h & rest & ud' & -> & Hr).
  cbn [snd]. rewrite appended_app. observe.
  by destruct (routed_observed _ _ _ _ Hr) as [-> _].
Qed.

Lemma button_router_replies env uid choice w :
  length (replies (appended w (snd (button_router env uid choice w)))) =
  (if recognized choice then 1 else 0).
Proof.
  destruct (button_router_run env uid choice w) as (h & rest & ud' & -> & Hr).
  cbn [snd]. rewrite appended_app. observe.
  by destruct (routed_observed _ _ _ _ Hr) as [_ ->].
Qed.

Lemma routed_stored choice ud ud' rest :
  routed choice ud ud' rest -> stored rest = [].
Proof. intros Hr. by inversion Hr. Qed.

Lemma button_router_stored env uid choice w :
  firebase_initialized env = true ->
  (forall h en, push env h en = None) ->
  entry_record <$> stored (appended w (snd (button_router env uid choice w))) =
  [click_record uid choice].
Proof.
  intros Hinit Hpush.
  destruct (button_router_run env uid choice w) as (h & rest & ud' & -> & Hr).
  cbn [snd]. rewrite appended_app. observe.
  rewrite (routed_stored _ _ _ _ Hr), app_nil_r.
  by apply stored_log_events.
Qed.

Lemma button_router_returns env uid choice w :
  fst (button_router env uid choice w) = Returned tt.
Proof.
  by destruct (button_router_run env uid choice w) as (h & rest & ud' & -> & _).
Qed.

Lemma button_router_unrecognized env uid choice w :
  recognized choice = false ->
  user_data (snd (button_router env uid choice w)) = user_data w /\
  writes (appended w (snd (button_router env uid choice w))) = [].
Proof.
  intros Hu.
  destruct (button_router_run env uid choice w) as (h & rest & ud' & -> & Hr).
  destruct (routed_unrecognized_inv _ _ _ _ Hu Hr) as [-> ->].
  cbn [snd user_data]. rewrite appended_app. by observe.
Qed.

(** ** What one run of [handle_text] shows *)

Lemma observe_ip_events env h text :
  log_records (ip_events env h text) = [] /\
  stored (ip_events env h text) = [] /\
  replies (ip_events env h text) = [] /\
  writes (ip_events env h text) = [] /\
  backend_calls (ip_events env h text) = [HttpCall (ip_url text)].
Proof. done. Qed.

Lemma observe_pop_default_events ud key :
  log_records (pop_default_events ud key) = [] /\
  stored (pop_default_events ud key) = [] /\
  replies (pop_default_events ud key) = [] /\
  backend_calls (pop_default_events ud key) = [].
Proof. unfold pop_default_events. by destruct (ud !! key). Qed.

Lemma log_records_ip_events env h text : log_records (ip_events env h text) = [].
Proof. apply observe_ip_events. Qed.

Lemma stored_ip_events env h text : stored (ip_events env h text) = [].
Proof. apply observe_ip_events. Qed.

Lemma replies_ip_events env h text : replies (ip_events env h text) = [].
Proof. apply observe_ip_events. Qed.

Lemma backend_calls_ip_events env h text :
  backend_calls (ip_events env h text) = [HttpCall (ip_url text)].
Proof. apply observe_ip_events. Qed.

Lemma log_records_pop_default_events ud key :
  log_records (pop_default_events ud key) = [].
Proof. apply observe_pop_default_events. Qed.

Lemma stored_pop_default_events ud key : stored (pop_default_events ud key) = [].
Proof. apply observe_pop_default_events. Qed.

Lemma replies_pop_default_events ud key : replies (pop_default_events ud key) = [].
Proof. apply observe_pop_default_events. Qed.

Lemma backend_calls_pop_default_events ud key :
  backend_calls (pop_default_events ud key) = [].
Proof. apply observe_pop_default_events. Qed.

#[local] Hint Rewrite log_records_ip_events stored_ip_events replies_ip_events
  backend_calls_ip_events log_records_pop_default_events
  stored_pop_default_events replies_pop_default_events
  backend_calls_pop_default_events : observe.

Lemma handle_text_shows env uid raw w :
  let r := handle_text env uid raw w in
  fst r = Returned tt /\
  exists answer,
    text_run_shows uid (PyStr.strip raw) (user_data w) (user_data (snd r))
                   (appended w (snd r)) answer.
Proof.
  cbv zeta. unfold text_run_shows.
  destruct (user_data w !! "faq_topic") as [topic|] eqn:Htopic.
  { destruct (handle_text_faq_run env uid raw w topic Htopic)
      as (h1 & h2 & h3 & ->).
    split; [done|]. eexists. cbn [snd user_data]. rewrite appended_app.
    observe. by repeat split. }
  destruct (flag_set (user_data w) "awaiting_ip") eqn:Hip.
  { destruct (handle_text_ip_run env uid raw w Htopic Hip)
      as (h1 & h2 & h3 & ->).
    split; [done|]. eexists. cbn [snd user_data]. rewrite appended_app.
    observe. by repeat split. }
  destruct (flag_set (user_data w) "awaiting_hash") eqn:Hhash.
  { destruct (handle_text_hash_run env uid raw w Htopic Hip Hhash)
      as (h1 & h3 & ->).
    split; [done|]. eexists. cbn [snd user_data]. rewrite appended_app.
    observe. by repeat split. }
  destruct (handle_text_general_run env uid raw w Htopic Hip Hhash)
    as (h1 & h2 & h3 & ->).
  split; [done|]. eexists. cbn [snd user_data]. rewrite appended_app.
  observe. by repeat split.
Qed.

(** Where the store is initialised and accepts every push, the records of a
    run are the entries the store received. *)
Lemma handle_text_stored env uid raw w :
  firebase_initialized env = true ->
  (forall h en, push env h en = None) ->
  let evs := appended w (snd (handle_text env uid raw w)) in
  entry_record <$> stored evs = log_records evs.
Proof.
  intros Hinit Hpush. cbv zeta.
  assert (Hst : forall h u act d,
            stored (log_events env h u act d) =
            [mkEntry u act (data_or_empty d) (utcnow env h)]).
  { intros. unfold log_events. rewrite Hinit. cbn. by rewrite Hpush. }
  destruct (user_data w !! "faq_topic") as [topic|] eqn:Htopic.
  { destruct (handle_text_faq_run env uid raw w topic Htopic)
      as (h1 & h2 & h3 & ->).
    cbn [snd]. rewrite appended_app. observe. by rewrite !Hst. }
  destruct (flag_set (user_data w) "awaiting_ip") eqn:Hip.
  { destruct (handle_text_ip_run env uid raw w Htopic Hip)
      as (h1 & h2 & h3 & ->).
    cbn [snd]. rewrite appended_app. observe. by rewrite !Hst. }
  destruct (flag_set (user_data w) "awaiting_hash") eqn:Hhash.
  { destruct (handle_text_hash_run env uid raw w Htopic Hip Hhash)
      as (h1 & h3 & ->).
    cbn [snd]. rewrite appended_app. observe. by rewrite !Hst. }
  destruct (handle_text_general_run env uid raw w Htopic Hip Hhash)
    as (h1 & h2 & h3 & ->).
  cbn [snd]. rewrite appended_app. observe. by rewrite !Hst.
Qed.

(** ** The pending flags across button presses *)

Lemma user_state_insert_faq_topic ud v :
  user_state (<["faq_topic" := v]> ud) =
  mkUserState (Some v) (flag_set ud "awaiting_ip") (flag_set ud "awaiting_hash").
Proof.
  unfold user_state, flag_set.
  by rewrite lookup_insert_eq, !lookup_insert_ne.
Qed.

Lemma user_state_insert_awaiting_ip ud :
  user_state (<["awaiting_ip" := PBool true]> ud) =
  mkUserState (ud !! "faq_topic") true (flag_set ud "awaiting_hash").
Proof.
  unfold user_state, flag_set.
  by rewrite lookup_insert_eq, !lookup_insert_ne.
Qed.

Lemma user_state_insert_awaiting_hash ud :
  user_state (<["awaiting_hash" := PBool true]> ud) =
  mkUserState (ud !! "faq_topic") (flag_set ud "awaiting_ip") true.
Proof.
  unfold user_state, flag_set.
  by rewrite lookup_insert_eq, !lookup_insert_ne.
Qed.

(** C1, as stated, fails: at most one of the three flags is pending in
    every state the application reaches.  User 1 presses [faq_cyber] and
    then [tool_ip]; the topic and the IP flag are then both pending. *)
Lemma two_flags_pending_at_once :
  ~ (forall (env : Env) (updates : list Update) (uid : Z),
       pending_count
         (user_state (user_data_of (run env initial_app updates) uid)) <= 1).
Proof.
  intros H.
  specialize (H healthy_env
                [CallbackQuery 1 "faq_cyber"; CallbackQuery 1 "tool_ip"] 1%Z).
  vm_compute in H. lia.
Qed.

(** C1, amended: each menu-setting operation of [button_router] (a
    [faq_<topic>] token, [tool_ip], [tool_hash]) sets its own flag and
    leaves the other two flags as they were; it clears nothing. *)
Theorem menu_selection_keeps_other_flags (env : Env) (uid : Z) (w : World)
    (t : string) :
  let s := user_state (user_data w) in
  let after choice :=
    user_state (user_data (snd (button_router env uid choice w))) in
  after ("faq_" +:+ t) = mkUserState (Some (PStr t)) (awaitingIp s) (awaitingHash s) /\
  after "tool_ip" = mkUserState (pendingFaqTopic s) true (awaitingHash s) /\
  after "tool_hash" = mkUserState (pendingFaqTopic s) (awaitingIp s) true.
Proof.
  cbv zeta. repeat split.
  - destruct (button_router_run env uid ("faq_" +:+ t) w)
      as (h & rest & ud' & -> & Hr).
    apply (routed_faq_inv _ _ _ _ (startswith_faq_app t)) in Hr as [-> _].
    cbn [snd user_data]. apply user_state_insert_faq_topic.
  - destruct (button_router_run env uid "tool_ip" w)
      as (h & rest & ud' & -> & Hr).
    apply routed_tool_ip_inv in Hr as [-> _].
    cbn [snd user_data]. apply user_state_insert_awaiting_ip.
  - destruct (button_router_run env uid "tool_hash" w)
      as (h & rest & ud' & -> & Hr).
    apply routed_tool_hash_inv in Hr as [-> _].
    cbn [snd user_data]. apply user_state_insert_awaiting_hash.
Qed.

(** ** One free-text message consumes one flag *)

Lemma flag_set_delete ud key key' :
  flag_set (delete key ud) key' =
  if decide (key = key') then false else flag_set ud key'.
Proof.
  unfold flag_set. rewrite lookup_delete. by destruct (decide (key = key')).
Qed.

Lemma handle_text_consumes env uid raw w :
  user_state (user_data (snd (handle_text env uid raw w))) =
  consume_flag (user_state (user_data w)).
Proof.
  destruct (handle_text_shows env uid raw w) as (_ & answer & H).
  unfold text_run_shows in H. unfold consume_flag, user_state at 2 3 4 5 6.
  cbn [pendingFaqTopic awaitingIp awaitingHash].
  destruct (user_data w !! "faq_topic") as [topic|] eqn:Htopic.
  { destruct H as (_ & _ & _ & ->). unfold user_state.
    by rewrite lookup_delete_eq, !flag_set_delete. }
  destruct (flag_set (user_data w) "awaiting_ip") eqn:Hip.
  { destruct H as (_ & _ & _ & ->). unfold user_state.
    rewrite lookup_delete_ne, Htopic, !flag_set_delete by done. done. }
  destruct (flag_set (user_data w) "awaiting_hash") eqn:Hhash.
  { destruct H as (_ & _ & _ & _ & ->). unfold user_state.
    rewrite !lookup_delete_ne, Htopic, !flag_set_delete by done.
    cbn. by rewrite Hip. }
  destruct H as (_ & _ & _ & ->). unfold user_state.
  rewrite !lookup_delete_ne, Htopic, !flag_set_delete by done.
  cbn. by rewrite Hip.
Qed.

Lemma consume_last_flag s :
  pending_count s <= 1 -> consume_flag s = mkUserState None false false.
Proof.
  destruct s as [[topic|] [|] [|]]; unfold pending_count, consume_flag; cbn;
    intros; try reflexivity; lia.
Qed.

Lemma handle_text_general env uid raw w :
  user_state (user_data w) = mkUserState None false false ->
  let evs := appended w (snd (handle_text env uid raw w)) in
  log_actions evs = ["general_question"; "general_answer"] /\
  backend_calls evs = [GenerateCall (PyStr.strip raw)].
Proof.
  intros Hs. cbv zeta. unfold user_state in Hs.
  injection Hs as Htopic Hip Hhash.
  destruct (handle_text_shows env uid raw w) as (_ & answer & H).
  unfold text_run_shows in H. rewrite Htopic, Hip, Hhash in H.
  destruct H as (Hlog & Hcalls & _). unfold log_actions. by rewrite Hlog, Hcalls.
Qed.

(** C2, as stated, fails: once a flag has been consumed by a free-text
    message, the next one takes the general-question path.  With the topic
    and the IP flag both pending (user 1 after [faq_cyber], [tool_ip]), the
    first message is the FAQ question and the second is looked up as an IP. *)
Lemma second_message_takes_ip_path :
  ~ (forall (env : Env) (uid : Z) (raw1 raw2 : string) (w : World),
       1 <= pending_count (user_state (user_data w)) ->
       let w1 := snd (handle_text env uid raw1 w) in
       log_actions (appended w1 (snd (handle_text env uid raw2 w1))) =
       ["general_question"; "general_answer"]).
Proof.
  intros H.
  specialize (H healthy_env 1%Z "What is phishing?" "8.8.8.8" two_flags_world).
  vm_compute in H. specialize (H ltac:(lia)). discriminate H.
Qed.

(** C2, amended: handling one free-text message removes the flag it
    matched (the pending flag of highest priority) from the user's state;
    when no other flag was pending, no flag is left and a second consecutive
    free-text message takes the general-question path. *)
Theorem one_shot_flags (env : Env) (uid : Z) (raw1 raw2 : string) (w : World) :
  let s := user_state (user_data w) in
  let w1 := snd (handle_text env uid raw1 w) in
  let evs2 := appended w1 (snd (handle_text env uid raw2 w1)) in
  user_state (user_data w1) = consume_flag s /\
  (pending_count s <= 1 ->
   pending_count (user_state (user_data w1)) = 0 /\
   log_actions evs2 = ["general_question"; "general_answer"] /\
   backend_calls evs2 = [GenerateCall (PyStr.strip raw2)]).
Proof.
  cbv zeta. pose proof (handle_text_consumes env uid raw1 w) as Hs.
  split; [exact Hs|]. intros Hone.
  rewrite (consume_last_flag _ Hone) in Hs. split; [by rewrite Hs|].
  by apply handle_text_general.
Qed.

(** A user with only the hash flag pending, served while the store and the
    backends are down. *)
Lemma one_shot_flags_witness :
  let w := mkWorld {[ "awaiting_hash" := PBool true ]} [] in
  let w1 := snd (handle_text failing_env 5 "d41d8cd9" w) in
  let evs2 := appended w1 (snd (handle_text failing_env 5 " hello " w1)) in
  pending_count (user_state (user_data w)) <= 1 /\
  pending_count (user_state (user_data w1)) = 0 /\
  log_actions evs2 = ["general_question"; "general_answer"] /\
  backend_calls evs2 = [GenerateCall "hello"].
Proof.
  cbv zeta. split; [vm_compute; lia|].
  apply (one_shot_flags failing_env 5 "d41d8cd9" " hello "
           (mkWorld {[ "awaiting_hash" := PBool true ]} [])).
  vm_compute; lia.
Defined.

(** ** Dispatch of free text *)

(** C3: [handle_text] takes exactly one branch, chosen in the fixed order
    topic, IP flag, hash flag, general question.  The branch is read off the
    two log records and the backend call; it is given the stripped text (and
    the topic); the state afterwards has the flag of the branch cleared and
    the other flags unchanged. *)
Theorem free_text_dispatch_priority (env : Env) (uid : Z) (raw : string)
    (w : World) :
  let text := PyStr.strip raw in
  let s := user_state (user_data w) in
  let w' := snd (handle_text env uid raw w) in
  let evs := appended w w' in
  let s' := user_state (user_data w') in
  match pendingFaqTopic s with
  | Some topic =>
      log_actions evs = ["faq_question"; "faq_answer"] /\
      backend_calls evs = [GenerateCall (gemini_prompt text (Some topic))] /\
      s' = mkUserState None (awaitingIp s) (awaitingHash s)
  | None =>
      if awaitingIp s then
        log_actions evs = ["ip_query"; "ip_result"] /\
        backend_calls evs = [HttpCall ("http://ip-api.com/json/" +:+ text)] /\
        s' = mkUserState None false (awaitingHash s)
      else if awaitingHash s then
        log_actions evs = ["hash_query"; "hash_result"] /\
        backend_calls evs = [] /\
        replies evs = [HASH_RESULT] /\
        s' = mkUserState None false false
      else
        log_actions evs = ["general_question"; "general_answer"] /\
        backend_calls evs = [GenerateCall text] /\
        s' = s
  end.
Proof.
  cbv zeta. rewrite handle_text_consumes. unfold consume_flag.
  destruct (handle_text_shows env uid raw w) as (_ & answer & H).
  unfold text_run_shows in H. unfold log_actions.
  remember (user_state (user_data w)) as s eqn:Hs.
  assert (pendingFaqTopic s = user_data w !! "faq_topic") as Htopic by by subst.
  assert (awaitingIp s = flag_set (user_data w) "awaiting_ip") as Hip by by subst.
  assert (awaitingHash s = flag_set (user_data w) "awaiting_hash") as Hhash
    by by subst.
  rewrite <- Htopic, <- Hip, <- Hhash in H.
  destruct (pendingFaqTopic s) as [topic|] eqn:Et.
  { destruct H as (-> & -> & _). by repeat split. }
  destruct (awaitingIp s) eqn:Ei.
  { destruct H as (-> & -> & _). by repeat split. }
  destruct (awaitingHash s) eqn:Eh.
  { destruct H as (-> & -> & -> & -> & _). by repeat split. }
  destruct H as (-> & -> & _). repeat split.
  destruct s; cbn in *; by subst.
Qed.

(** ** Replies *)

Lemma handle_text_replies env uid raw w :
  1 <= length (replies (appended w (snd (handle_text env uid raw w)))).
Proof.
  destruct (handle_text_shows env uid raw w) as (_ & answer & H).
  unfold text_run_shows in H.
  destruct (user_data w !! "faq_topic").
  { destruct H as (_ & _ & -> & _). cbn. lia. }
  destruct (flag_set (user_data w) "awaiting_ip").
  { destruct H as (_ & _ & -> & _). cbn. lia. }
  destruct (flag_set (user_data w) "awaiting_hash").
  { destruct H as (_ & _ & -> & _). cbn. lia. }
  destruct H as (_ & _ & -> & _). cbn. lia.
Qed.

(** C4, as stated, fails: every button action, recognized or not, gets at
    least one reply.  For the token [zzz] no branch of [button_router]
    matches: the callback is acknowledged and logged, and nothing is sent. *)
Lemma unrecognized_token_gets_no_reply :
  ~ (forall (env : Env) (uid : Z) (choice : string) (w : World),
       replies (appended w (snd (button_router env uid choice w))) <> []).
Proof.
  intros H. apply (H healthy_env 7%Z "zzz" fresh_world). reflexivity.
Qed.

(** C4, amended: every free-text message gets at least one reply and every
    recognized button token exactly one, whatever the store and the
    backends do; an unrecognized token gets none.  The handlers return
    normally, and the logger itself never raises and never writes to the
    user, so a failed log write is the only failure that shows nothing. *)
Theorem reply_totality (env : Env) (uid : Z) (w : World) :
  (forall raw,
     fst (handle_text env uid raw w) = Returned tt /\
     1 <= length (replies (appended w (snd (handle_text env uid raw w))))) /\
  (forall choice,
     fst (button_router env uid choice w) = Returned tt /\
     length (replies (appended w (snd (button_router env uid choice w)))) =
     if recognized choice then 1 else 0) /\
  (forall act d,
     fst (log_interaction env uid act d w) = Returned tt /\
     replies (appended w (snd (log_interaction env uid act d w))) = []).
Proof.
  repeat split.
  - apply handle_text_shows.
  - apply handle_text_replies.
  - apply button_router_returns.
  - apply button_router_replies.
  - by rewrite log_interaction_run.
  - rewrite log_interaction_run. cbn [snd]. rewrite appended_app.
    apply replies_log_events.
Qed.

(** ** Unrecognized tokens *)

Lemma process_unrecognized env a uid choice uid' :
  recognized choice = false ->
  user_data_of (process_update env a (CallbackQuery uid choice)) uid' =
  user_data_of a uid'.
Proof.
  intros Hu. unfold process_update. cbn [handler_for effective_user].
  destruct (button_router_run env uid choice
              (mkWorld (user_data_of a uid) (app_trace a)))
    as (h & rest & ud' & -> & Hr).
  destruct (routed_unrecognized_inv _ _ _ _ Hu Hr) as [-> ->].
  cbn [user_data]. unfold user_data_of. cbn [users].
  destruct (decide (uid = uid')) as [->|Hne].
  - by rewrite lookup_insert_eq.
  - by rewrite lookup_insert_ne.
Qed.

(** C5, as stated, fails: an unrecognized token leaves a log entry that
    identifies the action as unhandled.  Such an entry would have to differ
    from the click record written for every token; for [zzz] the click
    record is the only record. *)
Lemma unrecognized_token_not_marked :
  ~ (forall (env : Env) (uid : Z) (choice : string) (w : World),
       recognized choice = false ->
       exists r,
         r ∈ log_records (appended w (snd (button_router env uid choice w))) /\
         r <> click_record uid choice).
Proof.
  intros H.
  destruct (H healthy_env 7%Z "zzz" fresh_world eq_refl) as (r & Hin & Hne).
  rewrite button_router_log_records in Hin.
  apply list_elem_of_singleton in Hin. contradiction.
Qed.

(** C5, amended: for an unrecognized token [button_router] returns
    normally, writes nothing to [user_data] (no user's dictionary changes),
    and its only log record is the [button_click] record carrying the raw
    token, the same record every token gets. *)
Theorem unrecognized_token_leaves_state (env : Env) (uid : Z) (choice : string)
    (w : World) :
  recognized choice = false ->
  let r := button_router env uid choice w in
  fst r = Returned tt /\
  user_data (snd r) = user_data w /\
  writes (appended w (snd r)) = [] /\
  log_records (appended w (snd r)) = [click_record uid choice] /\
  (forall a uid',
     user_data_of (process_update env a (CallbackQuery uid choice)) uid' =
     user_data_of a uid').
Proof.
  intros Hu. cbv zeta.
  destruct (button_router_unrecognized env uid choice w Hu) as [Hud Hw].
  repeat split; try done.
  - apply button_router_returns.
  - apply button_router_log_records.
  - intros a uid'. by apply process_unrecognized.
Qed.

(** The token [zzz], pressed by a user who has two flags pending. *)
Lemma unrecognized_token_witness :
  let r := button_router failing_env 7 "zzz" two_flags_world in
  recognized "zzz" = false /\
  fst r = Returned tt /\
  user_data (snd r) = user_data two_flags_world /\
  writes (appended two_flags_world (snd r)) = [] /\
  log_records (appended two_flags_world (snd r)) = [click_record 7 "zzz"].
Proof.
  cbv zeta. split; [reflexivity|].
  destruct (unrecognized_token_leaves_state failing_env 7 "zzz"
              two_flags_world eq_refl) as (H1 & H2 & H3 & H4 & _).
  by repeat split.
Defined.

(** ** The FAQ adapter *)

(** C6: [ask_gemini] returns a string for every question, topic and
    backend outcome.  When the backend raises, the string is the degraded
    message around the first 100 characters of the error text. *)
Theorem ask_gemini_never_raises (env : Env) (question : string)
    (topic : option pyval) (w : World) :
  exists reply,
    fst (ask_gemini env question topic w) = Returned reply /\
    match generate_content env (trace w) (gemini_prompt question topic) with
    | Returned text => reply = PyStr.strip text
    | Raised e =>
        reply =
          "❗️ Sorry, FAQ service is temporarily unavailable. Error: " +:+
          PyStr.take 100 e +:+ "..." /\
        String.length (PyStr.take 100 e) <= 100 /\
        e = PyStr.take 100 e +:+ PyStr.drop 100 e
    end.
Proof.
  rewrite ask_gemini_run. eexists. split; [reflexivity|].
  unfold gemini_reply.
  destruct (generate_content env (trace w) _) as [text|e]; [done|].
  split; [done|]. split; [apply take_length|]. by rewrite take_drop.
Qed.

(** ** The IP lookup *)

(** C7: the IP branch of [handle_text] (no FAQ topic pending, [awaiting_ip]
    set) never raises: it makes one request, for the stripped text, and
    always ends by replying with a result string, which is also the one it
    logs as [ip_result].  That string is decided by what the request gave: a
    reply object whose [status] is not ["success"] yields the backend's
    [message]; a transport or parsing failure, a body that is not an object,
    or a missing field yields the generic failure string around the
    exception text. *)
Theorem ip_lookup_error_behavior (env : Env) (uid : Z) (raw : string) (w : World) :
  user_data w !! "faq_topic" = None ->
  flag_set (user_data w) "awaiting_ip" = true ->
  let text := PyStr.strip raw in
  let url := "http://ip-api.com/json/" +:+ text in
  let r := handle_text env uid raw w in
  fst r = Returned tt /\
  exists before response logged result,
    appended w (snd r) =
      before ++ [EHttpGet url response] ++ logged ++
      [EReplyText result None (Some [ [("🛠️ Back to Tools", "menu_tools")] ])] /\
    response = requests_get_json env (trace w ++ before) url /\
    backend_calls before = [] /\ replies before = [] /\
    log_records before = [(uid, "ip_query", [("ip", PStr text)])] /\
    backend_calls logged = [] /\ replies logged = [] /\
    log_records logged = [(uid, "ip_result", [("result", PStr result)])] /\
    match response with
    | Raised e => result = ip_failure e
    | Returned (JNotObject e) => result = ip_failure e
    | Returned (JObject fields) =>
        match fields !! "status" with
        | None => result = ip_failure "'status'"
        | Some status =>
            if is_success status then
              match fields !! "query" with
              | None => result = ip_failure "'query'"
              | Some query =>
              match fields !! "city" with
              | None => result = ip_failure "'city'"
              | Some city =>
              match fields !! "regionName" with
              | None => result = ip_failure "'regionName'"
              | Some region =>
              match fields !! "country" with
              | None => result = ip_failure "'country'"
              | Some country =>
              match fields !! "isp" with
              | None => result = ip_failure "'isp'"
              | Some isp =>
                  result =
                    "🌐 IP: " +:+ jval_str query +:+ nl +:+
                    "City: " +:+ jval_str city +:+ nl +:+
                    "Region: " +:+ jval_str region +:+ nl +:+
                    "Country: " +:+ jval_str country +:+ nl +:+
                    "ISP: " +:+ jval_str isp
              end end end end end
            else
              match fields !! "message" with
              | Some message => result = "⚠️ Error: " +:+ jval_str message
              | None => result = ip_failure "'message'"
              end
        end
    end.
Proof.
  intros Htopic Hip text url r. subst r.
  destruct (handle_text_ip_trace env uid raw w Htopic Hip) as (h3 & Hrun).
  cbv zeta in Hrun. fold text in Hrun. rewrite Hrun. cbn [fst snd trace].
  split; [reflexivity|].
  rewrite appended_app.
  eexists _, _, _, _. split; [unfold ip_events, ip_url; reflexivity|].
  split; [reflexivity|].
  do 6 (split; [by observe|]).
  unfold ip_reply, ip_lookup, ip_failure, try_except, bind, requests_get,
    history, emit, subscript, ret, raise.
  cbn. fold url.
  destruct (requests_get_json env _ url) as [[fields|te]|e]; cbn;
    try reflexivity.
  destruct (fields !! "status") as [status|]; cbn; [|reflexivity].
  destruct (is_success status); cbn.
  - repeat match goal with
           | |- context [match ?m !! ?k with _ => _ end] =>
               destruct (m !! k); cbn
           end; reflexivity.
  - by destruct (fields !! "message").
Qed.

(** A new user presses [tool_ip] and sends a text that is no address: the
    service rejects it and its message is what the user is told. *)
Lemma ip_lookup_error_witness :
  let w := ip_pending_world in
  let w' := snd (handle_text healthy_env 1 " not-an-ip " w) in
  user_data w !! "faq_topic" = None /\
  flag_set (user_data w) "awaiting_ip" = true /\
  replies (appended w w') = ["⚠️ Error: invalid query"] /\
  log_records (appended w w') =
    [(1%Z, "ip_query", [("ip", PStr "not-an-ip")]);
     (1%Z, "ip_result", [("result", PStr "⚠️ Error: invalid query")])].
Proof.
  cbv zeta. split; [reflexivity|]. split; [reflexivity|].
  destruct (ip_lookup_error_behavior healthy_env 1 " not-an-ip "
              ip_pending_world eq_refl eq_refl)
    as (_ & before & response & logged & result & Hevs & Hresp & _ & Hrb & Hlb
        & _ & Hrl & Hll & Hres).
  rewrite Hevs. rewrite Hresp in Hres. vm_compute in Hres. subst result.
  rewrite !replies_app, !log_records_app, Hrb, Hlb, Hrl, Hll.
  split; reflexivity.
Defined.

(** ** Audit records of a free-text message *)

(** C8: for every free-text message, whichever branch is taken,
    [handle_text] logs exactly two records, the inbound query and then the
    answer or result it replied with.  Where the store is initialised and
    accepts the pushes, these two records are the entries it received. *)
Theorem request_then_response_logged (env : Env) (uid : Z) (raw : string)
    (w : World) :
  let text := PyStr.strip raw in
  let ud := user_data w in
  let evs := appended w (snd (handle_text env uid raw w)) in
  exists answer,
    last (replies evs) = Some answer /\
    log_records evs =
      match ud !! "faq_topic" with
      | Some topic =>
          [(uid, "faq_question", [("topic", topic); ("question", PStr text)]);
           (uid, "faq_answer", [("topic", topic); ("answer", PStr answer)])]
      | None =>
          if flag_set ud "awaiting_ip" then
            [(uid, "ip_query", [("ip", PStr text)]);
             (uid, "ip_result", [("result", PStr answer)])]
          else if flag_set ud "awaiting_hash" then
            [(uid, "hash_query", [("hash", PStr text)]);
             (uid, "hash_result", [("result", PStr answer)])]
          else
            [(uid, "general_question", [("question", PStr text)]);
             (uid, "general_answer", [("answer", PStr answer)])]
      end /\
    (firebase_initialized env = true ->
     (forall h en, push env h en = None) ->
     entry_record <$> stored evs = log_records evs).
Proof.
  cbv zeta.
  destruct (handle_text_shows env uid raw w) as (_ & answer & H).
  exists answer. unfold text_run_shows in H.
  split; [|split].
  - destruct (user_data w !! "faq_topic").
    { by destruct H as (_ & _ & -> & _). }
    destruct (flag_set (user_data w) "awaiting_ip").
    { by destruct H as (_ & _ & -> & _). }
    destruct (flag_set (user_data w) "awaiting_hash").
    { by destruct H as (_ & _ & -> & _). }
    by destruct H as (_ & _ & -> & _).
  - destruct (user_data w !! "faq_topic"); [apply H|].
    destruct (flag_set (user_data w) "awaiting_ip"); [apply H|].
    destruct (flag_set (user_data w) "awaiting_hash"); apply H.
  - intros Hinit Hpush. by apply handle_text_stored.
Qed.

(** The FAQ question of user 1, with a store that accepts every push. *)
Lemma request_then_response_witness :
  let evs :=
    appended two_flags_world
      (snd (handle_text healthy_env 1 " What is a Ponzi scheme? " two_flags_world)) in
  firebase_initialized healthy_env = true /\
  (forall h en, push healthy_env h en = None) /\
  entry_record <$> stored evs =
    [(1%Z, "faq_question",
      [("topic", PStr "cyber"); ("question", PStr "What is a Ponzi scheme?")]);
     (1%Z, "faq_answer",
      [("topic", PStr "cyber");
       ("answer", PStr "A Ponzi scheme pays old investors with new money.")])].
Proof.
  cbv zeta. split; [reflexivity|]. split; [reflexivity|].
  destruct (request_then_response_logged healthy_env 1
              " What is a Ponzi scheme? " two_flags_world)
    as (answer & _ & _ & Hstored).
  rewrite Hstored by reflexivity. reflexivity.
Defined.

(** ** FAQ tokens *)

(** C9: every token that starts with [faq_] sets the pending topic to
    what follows the first underscore, whatever that is, and the next
    free-text message takes the FAQ branch with that topic because the
    branch tests that the key is present. *)
Theorem faq_prefix_sets_topic (env : Env) (uid : Z) (choice raw : string)
    (w : World) :
  PyStr.startswith choice "faq_" = true ->
  let topic := PyStr.drop 4 choice in
  let text := PyStr.strip raw in
  let w1 := snd (button_router env uid choice w) in
  let evs := appended w1 (snd (handle_text env uid raw w1)) in
  PyStr.split1 "_" choice = ["faq"; topic] /\
  user_data w1 = <["faq_topic" := PStr topic]> (user_data w) /\
  backend_calls evs = [GenerateCall (gemini_prompt text (Some (PStr topic)))] /\
  exists answer,
    log_records evs =
      [(uid, "faq_question", [("topic", PStr topic); ("question", PStr text)]);
       (uid, "faq_answer", [("topic", PStr topic); ("answer", PStr answer)])].
Proof.
  intros Hfaq. cbv zeta.
  split; [by apply split1_faq|].
  destruct (button_router_run env uid choice w) as (h & rest & ud' & Hrun & Hr).
  apply (routed_faq_inv _ _ _ _ Hfaq) in Hr as [-> _].
  rewrite Hrun. cbn [snd user_data]. split; [reflexivity|].
  match goal with
  | |- context [handle_text env uid raw ?w1] =>
      destruct (handle_text_shows env uid raw w1) as (_ & answer & H)
  end.
  unfold text_run_shows in H. cbn [user_data] in H.
  rewrite lookup_insert_eq in H. destruct H as (Hlog & Hcalls & _).
  split; [exact Hcalls|]. by exists answer.
Qed.

(** The token [faq_]: the topic is the empty string, the next message takes
    the FAQ branch, and the prompt is the bare question. *)
Lemma empty_topic_witness :
  let w1 := snd (button_router healthy_env 3 "faq_" fresh_world) in
  let evs := appended w1 (snd (handle_text healthy_env 3 "Is this legal?" w1)) in
  PyStr.startswith "faq_" "faq_" = true /\
  user_data w1 = {[ "faq_topic" := PStr "" ]} /\
  backend_calls evs = [GenerateCall "Is this legal?"] /\
  log_actions evs = ["faq_question"; "faq_answer"].
Proof.
  cbv zeta. split; [reflexivity|].
  destruct (faq_prefix_sets_topic healthy_env 3 "faq_" "Is this legal?"
              fresh_world eq_refl) as (_ & Hud & Hcalls & answer & Hlog).
  split; [exact Hud|]. split; [exact Hcalls|].
  unfold log_actions. rewrite Hlog. reflexivity.
Defined.

(** ** The click record *)

(** C10: for every callback, recognized or not, [button_router] logs
    exactly one record, [button_click] with the raw token.  It comes right
    after the callback is acknowledged: every write to [user_data] and
    every message of the run comes after it.  Where the store is initialised
    and accepts the push, that record is the one entry it received. *)
Theorem button_click_logged_first (env : Env) (uid : Z) (choice : string)
    (w : World) :
  let evs := appended w (snd (button_router env uid choice w)) in
  log_records evs = [click_record uid choice] /\
  exists log rest,
    evs = [EAnswer] ++ log ++ rest /\
    log_records log = [click_record uid choice] /\
    writes log = [] /\
    replies log = [] /\
    log_records rest = [] /\
    (firebase_initialized env = true ->
     (forall h en, push env h en = None) ->
     entry_record <$> stored evs = [click_record uid choice]).
Proof.
  cbv zeta. split; [apply button_router_log_records|].
  pose proof (button_router_stored env uid choice w) as Hstored.
  destruct (button_router_run env uid choice w) as (h & rest & ud' & Hrun & Hr).
  rewrite Hrun in *. cbn [snd] in *. rewrite appended_app in *.
  eexists _, rest. split; [reflexivity|].
  split; [apply log_records_log_events|].
  split; [apply writes_log_events|].
  split; [apply replies_log_events|].
  split; [by destruct (routed_observed _ _ _ _ Hr)|].
  exact Hstored.
Qed.

(** The click on [tool_hash], by a user who has a topic and the IP flag
    pending, with a store that accepts the push. *)
Lemma button_click_witness :
  let evs :=
    appended two_flags_world
      (snd (button_router healthy_env 1 "tool_hash" two_flags_world)) in
  firebase_initialized healthy_env = true /\
  (forall h en, push healthy_env h en = None) /\
  log_records evs = [click_record 1 "tool_hash"] /\
  entry_record <$> stored evs = [click_record 1 "tool_hash"].
Proof.
  cbv zeta. split; [reflexivity|]. split; [reflexivity|].
  destruct (button_click_logged_first healthy_env 1 "tool_hash" two_flags_world)
    as (Hlog & _ & _ & _ & _ & _ & _ & _ & Hstored).
  split; [exact Hlog|]. apply Hstored; reflexivity.
Defined.

(** * Further properties of the handlers *)

(** ** More observations over the pieces of a trace *)

Lemma rendered_tokens_app l1 l2 :
  rendered_tokens (l1 ++ l2) = rendered_tokens l1 ++ rendered_tokens l2.
Proof. unfold rendered_tokens. by rewrite fmap_app, concat_app. Qed.

Lemma push_attempts_app l1 l2 :
  push_attempts (l1 ++ l2) = push_attempts l1 ++ push_attempts l2.
Proof. apply omap_app. Qed.

Lemma console_records_app l1 l2 :
  console_records (l1 ++ l2) = console_records l1 ++ console_records l2.
Proof. apply omap_app. Qed.

Lemma rendered_tokens_log_events env h uid act d :
  rendered_tokens (log_events env h uid act d) = [].
Proof.
  unfold log_events. destruct (firebase_initialized env); cbn; [|reflexivity].
  by destruct (push env h _).
Qed.

Lemma rendered_tokens_gemini_events env h q t :
  rendered_tokens (gemini_events env h q t) = [].
Proof. unfold gemini_events. cbn. by destruct (generate_content env h _). Qed.

Lemma push_attempts_gemini_events env h q t :
  push_attempts (gemini_events env h q t) = [].
Proof. unfold gemini_events. cbn. by destruct (generate_content env h _). Qed.

Lemma console_records_gemini_events env h q t :
  console_records (gemini_events env h q t) = [].
Proof. unfold gemini_events. cbn. by destruct (generate_content env h _). Qed.

Lemma observe_more_ip_events env h text :
  rendered_tokens (ip_events env h text) = [] /\
  push_attempts (ip_events env h text) = [] /\
  console_records (ip_events env h text) = [].
Proof. done. Qed.

Lemma observe_more_pop_default_events ud key :
  rendered_tokens (pop_default_events ud key) = [] /\
  push_attempts (pop_default_events ud key) = [] /\
  console_records (pop_default_events ud key) = [] /\
  writes (pop_default_events ud key) =
    match ud !! key with Some _ => [key] | None => [] end.
Proof. unfold pop_default_events. by destruct (ud !! key). Qed.

Lemma rendered_tokens_ip_events env h text :
  rendered_tokens (ip_events env h text) = [].
Proof. apply observe_more_ip_events. Qed.

Lemma push_attempts_ip_events env h text : push_attempts (ip_events env h text) = [].
Proof. apply observe_more_ip_events. Qed.

Lemma console_records_ip_events env h text :
  console_records (ip_events env h text) = [].
Proof. apply observe_more_ip_events. Qed.

Lemma rendered_tokens_pop_default_events ud key :
  rendered_tokens (pop_default_events ud key) = [].
Proof. apply observe_more_pop_default_events. Qed.

Lemma push_attempts_pop_default_events ud key :
  push_attempts (pop_default_events ud key) = [].
Proof. apply observe_more_pop_default_events. Qed.

Lemma console_records_pop_default_events ud key :
  console_records (pop_default_events ud key) = [].
Proof. apply observe_more_pop_default_events. Qed.

#[local] Hint Rewrite rendered_tokens_app push_attempts_app console_records_app
  rendered_tokens_log_events rendered_tokens_gemini_events
  push_attempts_gemini_events console_records_gemini_events
  rendered_tokens_ip_events push_attempts_ip_events console_records_ip_events
  rendered_tokens_pop_default_events push_attempts_pop_default_events
  console_records_pop_default_events : observe.

(** One statement of a handler, run from a known world. *)
Ltac exec :=
  first [ rewrite bind_emit | rewrite bind_log | rewrite bind_gemini
        | rewrite bind_ip | rewrite bind_ud_set | rewrite bind_ud_contains
        | rewrite bind_ud_pop_default | rewrite emit_run
        | rewrite log_interaction_run ];
  cbv beta; cbn [user_data trace].

(** ** [start] and [show_main_menu] *)

Lemma show_main_menu_run update w :
  exists e,
    show_main_menu update w =
      (Returned tt, mkWorld (user_data w) (trace w ++ [e])) /\
    reply_of e = Some MAIN_MENU_TEXT /\
    tokens_of e = MAIN_MENU_TOKENS /\
    logged e = None /\ stored_entry e = None /\ write_of e = None /\
    push_of e = None /\ console_record_of e = None /\ backend_of e = None /\
    (e = EEditMessageText MAIN_MENU_TEXT (Some "Markdown")
           (Some [ [("📚 FAQs", "menu_faq")]; [("🛠️ Tools", "menu_tools")];
                   [("🚨 Emergency", "menu_emergency")] ]) <->
     exists uid choice, update = CallbackQuery uid choice).
Proof.
  unfold show_main_menu. destruct update; rewrite emit_run; eexists;
    (split; [reflexivity|]); repeat split; try done;
    try (intros (? & ? & ?); done); eauto.
Qed.

Lemma start_run env update w :
  exists h e,
    start env update w =
      (Returned tt,
       mkWorld (user_data w)
         (trace w ++ log_events env h (effective_user update) "start" None ++ [e]))
    /\ reply_of e = Some MAIN_MENU_TEXT
    /\ tokens_of e = MAIN_MENU_TOKENS
    /\ logged e = None /\ stored_entry e = None /\ write_of e = None
    /\ push_of e = None /\ console_record_of e = None /\ backend_of e = None.
Proof.
  unfold start. exec.
  match goal with
  | |- context [show_main_menu update ?w1] =>
      destruct (show_main_menu_run update w1) as (e & -> & H)
  end.
  cbn [user_data trace]. exists (trace w), e.
  split; [by rewrite <- app_assoc|]. tauto.
Qed.

(** The branch of [handle_text] depends on the pending flags only. *)
Lemma handle_text_actions env uid raw w :
  log_actions (appended w (snd (handle_text env uid raw w))) =
  actions_for (user_state (user_data w)).
Proof.
  destruct (handle_text_shows env uid raw w) as (_ & answer & H).
  unfold text_run_shows in H. unfold actions_for, user_state, log_actions.
  cbn [pendingFaqTopic awaitingIp awaitingHash].
  destruct (user_data w !! "faq_topic").
  { by destruct H as (-> & _). }
  destruct (flag_set (user_data w) "awaiting_ip").
  { by destruct H as (-> & _). }
  destruct (flag_set (user_data w) "awaiting_hash"); by destruct H as (-> & _).
Qed.

(** X1: [start] returns normally, logs one [start] record without data,
    sends the main menu with its three buttons and leaves [user_data] as it
    is: a flag that was pending is still pending, so the next free-text
    message takes the branch it would have taken without the command. *)
Theorem start_keeps_pending_flags (env : Env) (update : Update) (raw : string)
    (w : World) :
  let uid := effective_user update in
  let w1 := snd (start env update w) in
  let evs := appended w w1 in
  fst (start env update w) = Returned tt /\
  user_data w1 = user_data w /\
  writes evs = [] /\
  log_records evs = [(uid, "start", [])] /\
  replies evs = [MAIN_MENU_TEXT] /\
  rendered_tokens evs = MAIN_MENU_TOKENS /\
  log_actions (appended w1 (snd (handle_text env uid raw w1))) =
  actions_for (user_state (user_data w)).
Proof.
  cbv zeta.
  destruct (start_run env update w)
    as (h & e & Hrun & Hreply & Htok & Hlog & _ & Hwr & _).
  rewrite Hrun. cbn [fst snd user_data]. rewrite appended_app.
  rewrite handle_text_actions. cbn [user_data].
  unfold writes, log_records, replies, rendered_tokens.
  rewrite !omap_app, fmap_app, concat_app. cbn.
  rewrite Hreply, Htok, Hlog, Hwr.
  fold (writes (log_events env h (effective_user update) "start" None)).
  fold (log_records (log_events env h (effective_user update) "start" None)).
  fold (replies (log_events env h (effective_user update) "start" None)).
  fold (rendered_tokens (log_events env h (effective_user update) "start" None)).
  rewrite writes_log_events, log_records_log_events, replies_log_events,
    rendered_tokens_log_events.
  cbn. done.
Qed.

(** ** Menu navigation and repeated selections *)

Lemma routed_menu_inv choice ud ud' rest :
  is_menu choice = true ->
  routed choice ud ud' rest ->
  ud' = ud /\ exists text mode kb, rest = [EEditMessageText text mode kb].
Proof.
  intros Hm Hr. inversion Hr as [text mode kb _| Hf | Hc | Hc | Hu]; subst.
  - eauto.
  - apply is_menu_not_faq in Hm. congruence.
  - discriminate Hm.
  - discriminate Hm.
  - apply is_menu_recognized in Hm. congruence.
Qed.

(** X2: the four navigation tokens ([menu_faq], [menu_tools],
    [menu_emergency], [back_to_main]) only render a menu: [button_router]
    writes nothing to [user_data], so a pending flag survives any amount of
    navigation and still decides the branch of the next free-text message. *)
Theorem menu_navigation_keeps_state (env : Env) (uid : Z) (choice raw : string)
    (w : World) :
  is_menu choice = true ->
  let w1 := snd (button_router env uid choice w) in
  user_data w1 = user_data w /\
  writes (appended w w1) = [] /\
  length (replies (appended w w1)) = 1 /\
  log_actions (appended w1 (snd (handle_text env uid raw w1))) =
  actions_for (user_state (user_data w)).
Proof.
  intros Hm. cbv zeta. rewrite handle_text_actions.
  destruct (button_router_run env uid choice w) as (h & rest & ud' & -> & Hr).
  destruct (routed_menu_inv _ _ _ _ Hm Hr) as (-> & text & mode & kb & ->).
  cbn [snd user_data]. rewrite appended_app. observe. done.
Qed.

(** Navigation with the topic and the IP flag pending. *)
Lemma menu_navigation_witness :
  let w1 := snd (button_router healthy_env 1 "back_to_main" two_flags_world) in
  is_menu "back_to_main" = true /\
  user_data w1 = user_data two_flags_world /\
  log_actions (appended w1 (snd (handle_text healthy_env 1 "hello" w1))) =
  ["faq_question"; "faq_answer"].
Proof.
  cbv zeta. split; [reflexivity|].
  destruct (menu_navigation_keeps_state healthy_env 1 "back_to_main" "hello"
              two_flags_world eq_refl) as (Hud & _ & _ & Hact).
  split; [exact Hud|]. rewrite Hact. reflexivity.
Defined.

Lemma button_router_faq env uid t w :
  user_data (snd (button_router env uid ("faq_" +:+ t) w)) =
  <["faq_topic" := PStr t]> (user_data w).
Proof.
  destruct (button_router_run env uid ("faq_" +:+ t) w)
    as (h & rest & ud' & -> & Hr).
  by apply (routed_faq_inv _ _ _ _ (startswith_faq_app t)) in Hr as [-> _].
Qed.

Lemma button_router_tool_ip env uid w :
  user_data (snd (button_router env uid "tool_ip" w)) =
  <["awaiting_ip" := PBool true]> (user_data w).
Proof.
  destruct (button_router_run env uid "tool_ip" w) as (h & rest & ud' & -> & Hr).
  by apply routed_tool_ip_inv in Hr as [-> _].
Qed.

Lemma button_router_tool_hash env uid w :
  user_data (snd (button_router env uid "tool_hash" w)) =
  <["awaiting_hash" := PBool true]> (user_data w).
Proof.
  destruct (button_router_run env uid "tool_hash" w) as (h & rest & ud' & -> & Hr).
  by apply routed_tool_hash_inv in Hr as [-> _].
Qed.

(** X3: a later FAQ selection replaces the pending topic (the last one
    wins, and the next message is asked about it), and pressing a tool button
    again changes nothing. *)
Theorem later_selection_overwrites (env : Env) (uid : Z) (a b raw : string)
    (w : World) :
  let press choice w := snd (button_router env uid choice w) in
  let w2 := press ("faq_" +:+ b) (press ("faq_" +:+ a) w) in
  user_data w2 = user_data (press ("faq_" +:+ b) w) /\
  backend_calls (appended w2 (snd (handle_text env uid raw w2))) =
    [GenerateCall (gemini_prompt (PyStr.strip raw) (Some (PStr b)))] /\
  user_data (press "tool_ip" (press "tool_ip" w)) = user_data (press "tool_ip" w) /\
  user_data (press "tool_hash" (press "tool_hash" w)) =
    user_data (press "tool_hash" w).
Proof.
  cbv zeta. repeat split.
  - rewrite !button_router_faq. apply insert_insert_eq.
  - match goal with
    | |- context [handle_text env uid raw ?w2] =>
        destruct (handle_text_shows env uid raw w2) as (_ & answer & H)
    end.
    unfold text_run_shows in H. rewrite button_router_faq in H.
    rewrite lookup_insert_eq in H. by destruct H as (_ & -> & _).
  - rewrite !button_router_tool_ip. apply insert_insert_eq.
  - rewrite !button_router_tool_hash. apply insert_insert_eq.
Qed.

(** ** Draining the pending flags *)

Lemma pending_count_consume s :
  pending_count (consume_flag s) = pred (pending_count s).
Proof. by destruct s as [[topic|] [|] [|]]. Qed.

Lemma pending_count_bound s : pending_count s <= 3.
Proof. destruct s as [[topic|] [|] [|]]; unfold pending_count; cbn; lia. Qed.

(** X4: every free-text message consumes exactly one pending flag when
    there is one, so at most three messages drain whatever was pending and
    the fourth message in a row is a general question. *)
Theorem each_message_consumes_one_flag (env : Env) (uid : Z)
    (raw1 raw2 raw3 raw4 : string) (w : World) :
  let next raw w := snd (handle_text env uid raw w) in
  let count w := pending_count (user_state (user_data w)) in
  let w3 := next raw3 (next raw2 (next raw1 w)) in
  count (next raw1 w) = pred (count w) /\
  count w3 = 0 /\
  log_actions (appended w3 (next raw4 w3)) = ["general_question"; "general_answer"].
Proof.
  cbv zeta.
  assert (Hstep : forall raw w',
            pending_count (user_state (user_data (snd (handle_text env uid raw w')))) =
            pred (pending_count (user_state (user_data w')))).
  { intros. by rewrite handle_text_consumes, pending_count_consume. }
  split; [apply Hstep|].
  assert (H0 : pending_count
                 (user_state
                    (user_data
                       (snd (handle_text env uid raw3
                          (snd (handle_text env uid raw2
                             (snd (handle_text env uid raw1 w)))))))) = 0).
  { rewrite !Hstep.
    pose proof (pending_count_bound (user_state (user_data w))). lia. }
  split; [exact H0|].
  rewrite handle_text_actions. unfold actions_for.
  destruct (user_state _) as [[topic|] [|] [|]]; try discriminate H0.
  reflexivity.
Qed.

(** ** The buttons the bot shows *)

Lemma button_router_tokens env uid choice w :
  rendered_tokens (appended w (snd (button_router env uid choice w))) =
  tokens_rendered_for choice.
Proof.
  unfold button_router, tokens_rendered_for. do 2 exec.
  destruct (String.eqb choice "menu_faq") eqn:E1.
  { exec. cbn [snd]. rewrite <- !app_assoc, appended_app. by observe. }
  destruct (PyStr.startswith choice "faq_") eqn:E2.
  { rewrite (split1_faq _ E2). unfold list_index. cbn [lookup list_lookup].
    unfold ret at 1. rewrite (bind_run _ _ _ _ _ eq_refl). do 2 exec.
    cbn [snd]. rewrite <- !app_assoc, appended_app. by observe. }
  destruct (String.eqb choice "menu_tools") eqn:E3.
  { exec. cbn [snd]. rewrite <- !app_assoc, appended_app. by observe. }
  destruct (String.eqb choice "tool_ip") eqn:E4.
  { do 2 exec. cbn [snd]. rewrite <- !app_assoc, appended_app. observe.
    apply String.eqb_eq in E4. by subst. }
  destruct (String.eqb choice "tool_hash") eqn:E5.
  { do 2 exec. cbn [snd]. rewrite <- !app_assoc, appended_app. observe.
    apply String.eqb_eq in E5. by subst. }
  destruct (String.eqb choice "menu_emergency") eqn:E6.
  { exec. cbn [snd]. rewrite <- !app_assoc, appended_app. by observe. }
  destruct (String.eqb choice "back_to_main") eqn:E7.
  { unfold show_main_menu. exec. cbn [snd].
    rewrite <- !app_assoc, appended_app. by observe. }
  unfold ret. cbn [snd]. rewrite <- !app_assoc, appended_app. by observe.
Qed.

Lemma tokens_rendered_for_recognized choice :
  Forall (fun t => recognized t = true) (tokens_rendered_for choice).
Proof.
  unfold tokens_rendered_for.
  repeat match goal with
         | |- context [if ?b then _ else _] => destruct b
         end; repeat constructor.
Qed.

Lemma handle_text_tokens env uid raw w :
  rendered_tokens (appended w (snd (handle_text env uid raw w))) =
  [return_token_for (user_state (user_data w))].
Proof.
  unfold return_token_for, user_state. cbn [pendingFaqTopic awaitingIp awaitingHash].
  destruct (user_data w !! "faq_topic") as [topic|] eqn:Htopic.
  { destruct (handle_text_faq_run env uid raw w topic Htopic)
      as (h1 & h2 & h3 & ->).
    cbn [snd]. rewrite appended_app. by observe. }
  destruct (flag_set (user_data w) "awaiting_ip") eqn:Hip.
  { destruct (handle_text_ip_run env uid raw w Htopic Hip)
      as (h1 & h2 & h3 & ->).
    cbn [snd]. rewrite appended_app. by observe. }
  destruct (flag_set (user_data w) "awaiting_hash") eqn:Hhash.
  { destruct (handle_text_hash_run env uid raw w Htopic Hip Hhash)
      as (h1 & h3 & ->).
    cbn [snd]. rewrite appended_app. by observe. }
  destruct (handle_text_general_run env uid raw w Htopic Hip Hhash)
    as (h1 & h2 & h3 & ->).
  cbn [snd]. rewrite appended_app. by observe.
Qed.

(** X5: every callback token on a keyboard that [start],
    [button_router] or [handle_text] renders is a token some branch of
    [button_router] answers to: no button of the bot leads to the
    unrecognized case. *)
Theorem rendered_buttons_are_handled (env : Env) (w : World) :
  (forall update,
     Forall (fun t => recognized t = true)
            (rendered_tokens (appended w (snd (start env update w))))) /\
  (forall uid choice,
     Forall (fun t => recognized t = true)
            (rendered_tokens (appended w (snd (button_router env uid choice w))))) /\
  (forall uid raw,
     Forall (fun t => recognized t = true)
            (rendered_tokens (appended w (snd (handle_text env uid raw w))))).
Proof.
  repeat split.
  - intros update.
    destruct (start_run env update w) as (h & e & -> & _ & Htok & _).
    cbn [snd]. rewrite appended_app. observe.
    unfold rendered_tokens. cbn. rewrite Htok. repeat constructor.
  - intros uid choice. rewrite button_router_tokens.
    apply tokens_rendered_for_recognized.
  - intros uid raw. rewrite handle_text_tokens. unfold return_token_for.
    repeat match goal with
           | |- context [match ?x with _ => _ end] => destruct x
           end; repeat constructor.
Qed.

(** X6: the final reply of [handle_text] carries exactly one button, which
    leads back to where the flag was set: the FAQ menu after a topic
    question, the tools menu after an IP or hash query, the main menu after a
    general question. *)
Theorem reply_offers_way_back (env : Env) (uid : Z) (raw : string) (w : World) :
  let s := user_state (user_data w) in
  rendered_tokens (appended w (snd (handle_text env uid raw w))) =
  [match pendingFaqTopic s with
   | Some _ => "menu_faq"
   | None => if awaitingIp s || awaitingHash s then "menu_tools" else "back_to_main"
   end].
Proof. apply handle_text_tokens. Qed.

(** X7: each of the three sub-menus ([menu_faq], [menu_tools],
    [menu_emergency]) shows a button back to the main menu, and the main menu
    shows a button to each of the three: the menus form a cycle with no dead
    end. *)
Theorem submenus_offer_back (env : Env) (uid : Z) (choice : string) (w : World) :
  is_menu choice = true ->
  let shown := rendered_tokens (appended w (snd (button_router env uid choice w))) in
  if String.eqb choice "back_to_main" then
    shown = ["menu_faq"; "menu_tools"; "menu_emergency"]
  else "back_to_main" ∈ shown.
Proof.
  intros Hm. cbv zeta. rewrite button_router_tokens.
  unfold is_menu in Hm. unfold tokens_rendered_for.
  repeat (apply orb_true_iff in Hm as [Hm|Hm]);
    apply String.eqb_eq in Hm; subst; cbn; set_solver.
Qed.

Lemma submenus_offer_back_witness :
  is_menu "menu_emergency" = true /\
  "back_to_main" ∈
    rendered_tokens
      (appended fresh_world
         (snd (button_router failing_env 2 "menu_emergency" fresh_world))).
Proof.
  split; [reflexivity|].
  apply (submenus_offer_back failing_env 2 "menu_emergency" fresh_world eq_refl).
Defined.

(** ** The logger under a missing or failing store *)

Lemma log_events_uninitialised env h uid act d :
  firebase_initialized env = false ->
  log_events env h uid act d = [EPrint (LogLine uid act (data_or_empty d))].
Proof. intros H. unfold log_events. by rewrite H. Qed.

Lemma log_events_push_raises env h uid act d :
  firebase_initialized env = true ->
  (forall h' en, push env h' en <> None) ->
  exists e,
    log_events env h uid act d =
    [EPush (mkEntry uid act (data_or_empty d) (utcnow env h)) (Some e);
     EPrint (Line ("Logging error: " +:+ e))].
Proof.
  intros Hinit Hpush. unfold log_events. rewrite Hinit. cbn.
  destruct (push env h _) as [e|] eqn:E; [by exists e|].
  by apply Hpush in E.
Qed.

Lemma interleaved_app_other env l evs n :
  Forall log_free l -> interleaved env evs n -> interleaved env (l ++ evs) n.
Proof. induction 1; cbn; [done|]. intros. by apply interleaved_other; auto. Qed.

Lemma log_free_gemini_events env h q t : Forall log_free (gemini_events env h q t).
Proof.
  unfold gemini_events. cbn.
  destruct (generate_content env h _); repeat constructor.
Qed.

Lemma log_free_ip_events env h text : Forall log_free (ip_events env h text).
Proof. repeat constructor. Qed.

Lemma log_free_pop_default_events ud key : Forall log_free (pop_default_events ud key).
Proof. unfold pop_default_events. destruct (ud !! key); repeat constructor. Qed.

(** Solves [interleaved] goals over a trace built from known pieces. *)
Ltac interleave :=
  repeat first
    [ apply interleaved_nil
    | apply interleaved_log
    | apply interleaved_app_other;
        [first [ apply log_free_gemini_events | apply log_free_ip_events
               | apply log_free_pop_default_events
               | by repeat constructor ]|]
    | apply interleaved_other; [by repeat constructor|] ].

Lemma handle_text_interleaved env uid raw w :
  interleaved env (appended w (snd (handle_text env uid raw w))) 2.
Proof.
  destruct (user_data w !! "faq_topic") as [topic|] eqn:Htopic.
  { destruct (handle_text_faq_run env uid raw w topic Htopic)
      as (h1 & h2 & h3 & ->).
    cbn [snd]. rewrite appended_app. interleave. }
  destruct (flag_set (user_data w) "awaiting_ip") eqn:Hip.
  { destruct (handle_text_ip_run env uid raw w Htopic Hip)
      as (h1 & h2 & h3 & ->).
    cbn [snd]. rewrite appended_app. interleave. }
  destruct (flag_set (user_data w) "awaiting_hash") eqn:Hhash.
  { destruct (handle_text_hash_run env uid raw w Htopic Hip Hhash)
      as (h1 & h3 & ->).
    cbn [snd]. rewrite appended_app. interleave. }
  destruct (handle_text_general_run env uid raw w Htopic Hip Hhash)
    as (h1 & h2 & h3 & ->).
  cbn [snd]. rewrite appended_app. interleave.
Qed.

Lemma routed_log_free choice ud ud' rest :
  routed choice ud ud' rest -> Forall log_free rest.
Proof. intros Hr. inversion Hr; repeat constructor. Qed.

Lemma button_router_interleaved env uid choice w :
  interleaved env (appended w (snd (button_router env uid choice w))) 1.
Proof.
  destruct (button_router_run env uid choice w) as (h & rest & ud' & -> & Hr).
  cbn [snd]. rewrite appended_app.
  apply interleaved_app_other; [by repeat constructor|].
  apply interleaved_log. rewrite <- (app_nil_r rest).
  apply interleaved_app_other; [by eapply routed_log_free|]. constructor.
Qed.

Lemma start_interleaved env update w :
  interleaved env (appended w (snd (start env update w))) 1.
Proof.
  destruct (start_run env update w)
    as (h & e & -> & _ & _ & Hl & Hs & _ & Hp & Hc & _).
  cbn [snd]. rewrite appended_app. apply interleaved_log.
  apply interleaved_other; [done|]. constructor.
Qed.

Lemma interleaved_uninitialised env evs n :
  firebase_initialized env = false ->
  interleaved env evs n ->
  push_attempts evs = [] /\ console_records evs = log_records evs /\
  length (log_records evs) = n.
Proof.
  intros Hinit. induction 1 as [|e evs n (Hp & Hc & Hl & _) _ (IHp & IHc & IHn)
                                 |h uid act d evs n _ (IHp & IHc & IHn)].
  - done.
  - unfold push_attempts, console_records, log_records in *. cbn.
    by rewrite Hp, Hc, Hl.
  - rewrite (log_events_uninitialised _ _ _ _ _ Hinit). cbn.
    unfold push_attempts, console_records, log_records in *. cbn.
    by rewrite IHp, IHc, IHn.
Qed.

Lemma interleaved_push_raises env evs n :
  firebase_initialized env = true ->
  (forall h en, push env h en <> None) ->
  interleaved env evs n ->
  stored evs = [] /\ length (push_attempts evs) = n /\
  console_records evs = [] /\ length (log_records evs) = n.
Proof.
  intros Hinit Hpush.
  induction 1 as [|e evs n (Hp & Hc & Hl & Hs) _ (IHs & IHp & IHc & IHn)
                  |h uid act d evs n _ (IHs & IHp & IHc & IHn)].
  - done.
  - unfold push_attempts, console_records, log_records, stored in *. cbn.
    by rewrite Hp, Hc, Hl, Hs.
  - destruct (log_events_push_raises env h uid act d Hinit Hpush) as (e & ->).
    unfold push_attempts, console_records, log_records, stored in *. cbn.
    by rewrite IHs, IHp, IHc, IHn.
Qed.

(** X8: in a process that started without the store
    ([firebase_initialized] false) no handler ever calls [push]: every
    record goes to the console instead, one line per record. *)
Theorem uninitialised_store_never_pushed (env : Env) (w : World) :
  firebase_initialized env = false ->
  (forall update,
     let evs := appended w (snd (start env update w)) in
     push_attempts evs = [] /\ console_records evs = log_records evs /\
     length (log_records evs) = 1) /\
  (forall uid choice,
     let evs := appended w (snd (button_router env uid choice w)) in
     push_attempts evs = [] /\ console_records evs = log_records evs /\
     length (log_records evs) = 1) /\
  (forall uid raw,
     let evs := appended w (snd (handle_text env uid raw w)) in
     push_attempts evs = [] /\ console_records evs = log_records evs /\
     length (log_records evs) = 2).
Proof.
  intros Hinit. repeat split; intros; cbv zeta;
    eapply interleaved_uninitialised; eauto using start_interleaved,
      button_router_interleaved, handle_text_interleaved.
Qed.

Lemma uninitialised_store_witness :
  let evs :=
    appended fresh_world (snd (button_router console_env 9 "tool_ip" fresh_world)) in
  firebase_initialized console_env = false /\
  push_attempts evs = [] /\
  console_records evs = [click_record 9 "tool_ip"].
Proof.
  cbv zeta. split; [reflexivity|].
  destruct (uninitialised_store_never_pushed console_env fresh_world eq_refl)
    as (_ & H & _).
  destruct (H 9%Z "tool_ip") as (Hp & Hc & _).
  split; [exact Hp|]. rewrite Hc. reflexivity.
Defined.

(** X9: when the store is initialised and every push raises, a handler
    still calls [push] once per record (no retry), stores nothing, prints
    nothing through the console fallback, and completes: [handle_text]
    returns normally and replies. *)
Theorem failing_store_is_survived (env : Env) (uid : Z) (raw choice : string)
    (w : World) :
  firebase_initialized env = true ->
  (forall h en, push env h en <> None) ->
  let evs := appended w (snd (handle_text env uid raw w)) in
  let evs' := appended w (snd (button_router env uid choice w)) in
  fst (handle_text env uid raw w) = Returned tt /\
  stored evs = [] /\ length (push_attempts evs) = 2 /\ console_records evs = [] /\
  1 <= length (replies evs) /\
  fst (button_router env uid choice w) = Returned tt /\
  stored evs' = [] /\ length (push_attempts evs') = 1 /\ console_records evs' = [].
Proof.
  intros Hinit Hpush. cbv zeta.
  destruct (interleaved_push_raises env _ 2 Hinit Hpush
              (handle_text_interleaved env uid raw w)) as (Hs & Hp & Hc & _).
  destruct (interleaved_push_raises env _ 1 Hinit Hpush
              (button_router_interleaved env uid choice w)) as (Hs' & Hp' & Hc' & _).
  repeat split; try done.
  - apply handle_text_shows.
  - apply handle_text_replies.
  - apply button_router_returns.
Qed.

Lemma failing_store_witness :
  let evs :=
    appended two_flags_world
      (snd (handle_text failing_env 1 "1.1.1.1" two_flags_world)) in
  firebase_initialized failing_env = true /\
  (forall h en, push failing_env h en <> None) /\
  stored evs = [] /\ length (push_attempts evs) = 2 /\ 1 <= length (replies evs).
Proof.
  cbv zeta. split; [reflexivity|]. split; [done|].
  destruct (failing_store_is_survived failing_env 1 "1.1.1.1" "zzz"
              two_flags_world eq_refl ltac:(done))
    as (_ & Hs & Hp & _ & Hr & _).
  done.
Defined.

(** ** The text of a message *)

Lemma lstrip_head s :
  PyStr.lstrip s = "" \/
  exists c t, PyStr.lstrip s = String c t /\ PyStr.is_space c = false.
Proof.
  induction s as [|c s IH]; cbn; [by left|].
  destruct (PyStr.is_space c) eqn:E; [exact IH|]. right. eauto.
Qed.

Lemma rstrip_head c t :
  PyStr.is_space c = false -> exists r, PyStr.rstrip (String c t) = String c r.
Proof.
  intros E. cbn. destruct (PyStr.rstrip t); rewrite ?E; eauto.
Qed.

Lemma rstrip_idempotent s : PyStr.rstrip (PyStr.rstrip s) = PyStr.rstrip s.
Proof.
  induction s as [|c s IH]; cbn; [done|].
  destruct (PyStr.rstrip s) as [|c' r] eqn:E.
  - destruct (PyStr.is_space c) eqn:Ec; cbn; [done|]. by rewrite Ec.
  - cbn [PyStr.rstrip]. fold PyStr.rstrip. cbn in IH. by rewrite IH.
Qed.

Lemma strip_idempotent s : PyStr.strip (PyStr.strip s) = PyStr.strip s.
Proof.
  unfold PyStr.strip.
  destruct (lstrip_head s) as [->|(c & t & -> & Hc)]; [done|].
  destruct (rstrip_head c t Hc) as (r & Hr).
  rewrite Hr. cbn [PyStr.lstrip]. rewrite Hc, <- Hr. apply rstrip_idempotent.
Qed.

(** X10: [handle_text] works on the stripped text only: white space
    around a message makes no difference to anything the handler does. *)
Theorem surrounding_whitespace_ignored (env : Env) (uid : Z) (raw : string)
    (w : World) :
  handle_text env uid raw w = handle_text env uid (PyStr.strip raw) w.
Proof. unfold handle_text. by rewrite strip_idempotent. Qed.

(** ** [error_handler] *)

(** X11: [error_handler] never answers the user and never touches
    [user_data]: it prints the error and, when there is an update and the
    update has an effective user, logs one [error] record with the error
    text against that user; without an update, or for an update without a
    user, it logs nothing. *)
Theorem error_handler_is_silent (env : Env) (update : option (option Z))
    (err : string) (w : World) :
  let r := error_handler env update err w in
  let evs := appended w (snd r) in
  fst r = Returned tt /\
  user_data (snd r) = user_data w /\
  writes evs = [] /\ replies evs = [] /\ backend_calls evs = [] /\
  head evs = Some (EPrint (Line ("Error: " +:+ err))) /\
  log_records evs =
    match update with
    | Some (Some user_id) => [(user_id, "error", [("error_message", PStr err)])]
    | Some None | None => []
    end.
Proof.
  cbv zeta. unfold error_handler, print. exec. destruct update as [[user_id|]|].
  - exec. cbn [fst snd user_data]. rewrite <- app_assoc, appended_app.
    observe. done.
  - unfold ret. cbn [fst snd user_data]. rewrite appended_app. by observe.
  - unfold ret. cbn [fst snd user_data]. rewrite appended_app. by observe.
Qed.

(** ** [ask_gemini] *)

Lemma length_append s t : String.length (s +:+ t) = String.length s + String.length t.
Proof.
  induction s as [|c s IH]; [done|].
  change (S (String.length (s +:+ t)) = S (String.length s) + String.length t).
  by rewrite IH.
Qed.

Lemma append_assoc s t u : (s +:+ t) +:+ u = s +:+ t +:+ u.
Proof.
  induction s as [|c s IH]; [done|].
  change (String c ((s +:+ t) +:+ u) = String c (s +:+ t +:+ u)).
  by rewrite IH.
Qed.

(** X12: [ask_gemini] calls the backend exactly once, whether the call
    succeeds or raises (there is no retry), sends nothing to the user and
    writes nothing to [user_data].  The prompt ends with the question as
    given, and is the bare question when the topic is [None] or false (the
    empty string). *)
Theorem ask_gemini_single_call (env : Env) (question : string)
    (topic : option pyval) (w : World) :
  let r := ask_gemini env question topic w in
  let evs := appended w (snd r) in
  backend_calls evs = [GenerateCall (gemini_prompt question topic)] /\
  replies evs = [] /\ writes evs = [] /\ log_records evs = [] /\
  user_data (snd r) = user_data w /\
  (exists framing, gemini_prompt question topic = framing +:+ question) /\
  (match topic with Some t => truthy t | None => false end = false ->
   gemini_prompt question topic = question).
Proof.
  cbv zeta. rewrite ask_gemini_run. cbn [snd user_data].
  rewrite appended_app. observe. repeat split.
  - unfold gemini_prompt. destruct topic as [t|]; [|by exists ""].
    destruct (truthy t); [|by exists ""].
    exists ("Please answer this question about " +:+ py_str t +:+
            " laws and regulations in India:" +:+ nl +:+ nl).
    by rewrite !append_assoc.
  - unfold gemini_prompt. destruct topic as [t|]; [|done]. by intros ->.
Qed.

Lemma ask_gemini_single_call_witness :
  (match Some (PStr "") with Some t => truthy t | None => false end = false) /\
  gemini_prompt "Is phishing a crime?" (Some (PStr "")) = "Is phishing a crime?".
Proof.
  split; [reflexivity|].
  apply (ask_gemini_single_call healthy_env "Is phishing a crime?"
           (Some (PStr "")) fresh_world).
  reflexivity.
Defined.

(** X13: the degraded reply of [ask_gemini] has a bounded length however
    long the error text is: the fixed wording and at most 100 characters of
    the error. *)
Theorem degraded_reply_is_bounded (env : Env) (question : string)
    (topic : option pyval) (w : World) (e : string) :
  generate_content env (trace w) (gemini_prompt question topic) = Raised e ->
  exists reply,
    fst (ask_gemini env question topic w) = Returned reply /\
    String.length reply <=
      String.length "❗️ Sorry, FAQ service is temporarily unavailable. Error: ..." + 100 /\
    (String.length e <= 100 ->
     reply = "❗️ Sorry, FAQ service is temporarily unavailable. Error: " +:+ e +:+ "...").
Proof.
  intros He. rewrite ask_gemini_run. eexists. split; [reflexivity|].
  unfold gemini_reply. rewrite He. unfold degraded_message. split.
  - rewrite !length_append. pose proof (take_length 100 e).
    change (String.length
              "❗️ Sorry, FAQ service is temporarily unavailable. Error: ...")
      with (String.length
              "❗️ Sorry, FAQ service is temporarily unavailable. Error: " +
            String.length "...").
    lia.
  - intros Hlen. do 2 f_equal.
    assert (Hd : PyStr.drop 100 e = "").
    { clear He. revert Hlen. generalize 100. intros n. revert e.
      induction n as [|n IH]; intros [|c e]; cbn; try done; try lia.
      intros. apply IH. lia. }
    rewrite <- (take_drop 100 e) at 2. rewrite Hd.
    clear. induction (PyStr.take 100 e) as [|c s IH]; [done|].
    change (String c s = String c (s +:+ "")). by rewrite <- IH.
Qed.

Lemma degraded_reply_witness :
  generate_content failing_env [] (gemini_prompt "hello" None) =
    Raised "429 quota exceeded" /\
  fst (ask_gemini failing_env "hello" None fresh_world) =
    Returned
      "❗️ Sorry, FAQ service is temporarily unavailable. Error: 429 quota exceeded...".
Proof.
  split; [reflexivity|].
  destruct (degraded_reply_is_bounded failing_env "hello" None fresh_world
              "429 quota exceeded" eq_refl) as (reply & Hr & _ & Heq).
  rewrite Hr, Heq; [reflexivity|]. vm_compute. lia.
Defined.

(** ** The IP branch *)

Lemma append_nonempty c s t : String c s +:+ t <> "".
Proof. discriminate. Qed.

(** X14: the IP branch makes exactly one HTTP request, to the service
    URL followed by the text as typed (no validation, no escaping, no retry),
    leaves [user_data] alone, and its result is never the empty string. *)
Theorem ip_lookup_single_request (env : Env) (text : string) (w : World) :
  let r := ip_lookup env text w in
  let evs := appended w (snd r) in
  backend_calls evs = [HttpCall ("http://ip-api.com/json/" +:+ text)] /\
  user_data (snd r) = user_data w /\
  writes evs = [] /\ replies evs = [] /\ log_records evs = [] /\
  exists result, fst r = Returned result /\ result <> "".
Proof.
  cbv zeta. rewrite ip_lookup_run. cbn [fst snd user_data].
  rewrite appended_app. repeat split; try done.
  eexists. split; [reflexivity|].
  unfold ip_reply, ip_lookup, try_except, bind, requests_get, history, emit,
    subscript, ret, raise.
  cbn.
  destruct (requests_get_json env (trace w) _) as [[fields|te]|e]; cbn;
    try apply append_nonempty.
  repeat first
    [ apply append_nonempty
    | match goal with
      | |- context [match ?m !! ?k with _ => _ end] => destruct (m !! k); cbn
      | |- context [if is_success ?v then _ else _] => destruct (is_success v); cbn
      end ].
Qed.

(** ** An empty answer *)

(** X15: nothing guards against an empty answer: when the backend's text
    is white space only, [ask_gemini] returns the empty string and the final
    reply of a general question is sent with an empty text. *)
Theorem blank_answer_is_sent_empty (env : Env) (uid : Z) (raw text : string)
    (w : World) :
  user_state (user_data w) = mkUserState None false false ->
  (forall h prompt, generate_content env h prompt = Returned text) ->
  PyStr.strip text = "" ->
  replies (appended w (snd (handle_text env uid raw w))) =
  ["🔍 Looking for an answer..."; ""].
Proof.
  intros Hs Hgen Hblank. unfold user_state in Hs.
  injection Hs as Htopic Hip Hhash.
  destruct (handle_text_general_run env uid raw w Htopic Hip Hhash)
    as (h1 & h2 & h3 & ->).
  cbn [snd]. rewrite appended_app. observe.
  unfold gemini_reply. by rewrite Hgen, Hblank.
Qed.

Lemma blank_answer_witness :
  let env := mkEnv false (fun _ => "t") (fun _ _ => None)
                   (fun _ _ => Returned "  ") (fun _ _ => Raised "down") in
  user_state (user_data fresh_world) = mkUserState None false false /\
  PyStr.strip "  " = "" /\
  replies (appended fresh_world (snd (handle_text env 4 "hi" fresh_world))) =
  ["🔍 Looking for an answer..."; ""].
Proof.
  cbv zeta. split; [reflexivity|]. split; [reflexivity|].
  apply (blank_answer_is_sent_empty _ 4 "hi" "  " fresh_world); reflexivity.
Defined.

(** * The validation script *)

Section ValidationFacts.

Import Validation.

Variable env : VEnv.

Lemma added_app h evs : added h (h ++ evs) = evs.
Proof. unfold added. apply drop_app_length. Qed.

Lemma attempts_app l1 l2 : attempts (l1 ++ l2) = attempts l1 ++ attempts l2.
Proof. apply omap_app. Qed.

Lemma calls_app l1 l2 : calls (l1 ++ l2) = calls l1 ++ calls l2.
Proof. apply List.filter_app. Qed.

Lemma firestore_writes_app l1 l2 :
  firestore_writes (l1 ++ l2) = firestore_writes l1 ++ firestore_writes l2.
Proof. apply omap_app. Qed.

Lemma vbind_run {A B} (m : VM A) (k : A -> VM B) h a h' :
  m h = (Returned a, h') -> vbind m k h = k a h'.
Proof. intros H. unfold vbind. by rewrite H. Qed.

Lemma vbind_print {B} s (k : unit -> VM B) h :
  vbind (vprint s) k h = k tt (h ++ [VPrint s]).
Proof. reflexivity. Qed.

(** *** [try_models] *)

Lemma try_models_run models last_error h :
  exists evs d,
    try_models env models last_error h = (Returned d, h ++ evs) /\
    tried models last_error (attempts evs) d /\
    length (calls evs) = length (attempts evs) /\
    firestore_writes evs = [] /\
    Forall no_initialize evs.
Proof.
  revert last_error h. induction models as [|name rest IH]; intros last_error h.
  - eexists _, _. split; [reflexivity|]. split; [constructor|].
    repeat split. by repeat constructor.
  - cbn [try_models]. rewrite vbind_print.
    unfold vbind at 1, generate_text.
    destruct (generate env (h ++ [VPrint ("Trying model: " +:+ name)]) name
                TEST_PROMPT) as [text|e] eqn:E.
    + rewrite !vbind_print. unfold vret.
      eexists _, _. split; [by rewrite <- !app_assoc|].
      split; [apply tried_works|]. repeat split. by repeat constructor.
    + rewrite vbind_print.
      match goal with
      | |- context [try_models env rest (Some e) ?h1] =>
          destruct (IH (Some e) h1) as (evs & d & -> & Ht & Hc & Hf & Hn)
      end.
      eexists _, d. split; [by rewrite <- !app_assoc|].
      rewrite !attempts_app, !calls_app, !firestore_writes_app. cbn.
      split; [by apply tried_next|]. split; [by rewrite Hc|].
      split; [exact Hf|]. by repeat constructor.
Qed.

Lemma tried_success models last_error att d :
  tried models last_error att d ->
  dict_get "success" d = Some (RBool true) ->
  exists errs name text rest,
    att = errs ++ [(name, Returned text)] /\
    Forall failed errs /\
    models = (fst <$> errs) ++ name :: rest /\
    d = success_result name text.
Proof.
  induction 1 as [last_error|name rest last_error text
                  |name rest last_error e att d _ IH]; intros Hs.
  - discriminate Hs.
  - by exists [], name, text, rest.
  - destruct (IH Hs) as (errs & n & text & rest' & -> & Hf & -> & ->).
    exists ((name, Raised e) :: errs), n, text, rest'.
    repeat split; try done. by constructor.
Qed.

Lemma tried_failure models last_error att d :
  tried models last_error att d ->
  dict_get "success" d <> Some (RBool true) ->
  Forall failed att /\
  fst <$> att = models /\
  d = failure_result "API key validation failed with all models"
        (error_value
           (match last att with
            | Some (_, Raised e) => Some e
            | _ => last_error
            end)).
Proof.
  induction 1 as [last_error|name rest last_error text
                  |name rest last_error e att d Ht IH]; intros Hs.
  - done.
  - by destruct Hs.
  - destruct (IH Hs) as (Hf & Hm & Hd). split; [by constructor|].
    split; [cbn; by rewrite Hm|].
    rewrite Hd. do 2 f_equal.
    destruct att as [|a att']; [done|].
    change (last ((name, Raised e) :: a :: att')) with (last (a :: att')).
    destruct (last (a :: att')) as [[n [t|e']]|] eqn:El; try done.
    + apply last_Some in El as (l' & El).
      rewrite El in Hf. apply Forall_app in Hf as [_ Hf].
      by inversion Hf.
    + by apply last_None in El.
Qed.

Lemma tried_shape models last_error att d :
  tried models last_error att d ->
  (exists name text, d = success_result name text) \/
  (exists message error, d = failure_result message error).
Proof. induction 1; eauto. Qed.

(** *** [list_available_models] *)

Lemma print_names_run names h :
  print_names names h =
  (Returned tt, h ++ ((fun name => VPrint ("- " +:+ name)) <$> names)).
Proof.
  revert h. induction names as [|name names IH]; intros h; cbn [print_names].
  - unfold vret. by rewrite app_nil_r.
  - rewrite vbind_print, IH. by rewrite <- app_assoc.
Qed.

Lemma observe_printed_names names :
  attempts ((fun name => VPrint ("- " +:+ name)) <$> names) = [] /\
  calls ((fun name => VPrint ("- " +:+ name)) <$> names) = [] /\
  firestore_writes ((fun name => VPrint ("- " +:+ name)) <$> names) = [] /\
  Forall no_initialize ((fun name => VPrint ("- " +:+ name)) <$> names).
Proof.
  induction names as [|name names (? & ? & ? & ?)]; cbn; [done|].
  repeat split; try done. by constructor.
Qed.

(** Splits a [Forall] over a trace built from known pieces. *)
Ltac forall_pieces :=
  repeat first
    [ apply Forall_nil
    | apply Forall_app; split
    | apply Forall_cons; split
    | apply observe_printed_names
    | assumption
    | done ].

Lemma list_available_models_run h :
  exists evs,
    list_available_models env h = (Returned (listed_after env h), h ++ evs) /\
    attempts evs = [] /\ firestore_writes evs = [] /\
    length (calls evs) <= 2 /\
    Forall no_initialize evs.
Proof.
  unfold list_available_models, listed_after, vtry. rewrite vbind_print.
  unfold vbind at 1, genai_configure.
  destruct (configure env _) as [e|].
  { rewrite vbind_print. unfold vret. eexists. split; [by rewrite <- !app_assoc|].
    cbn. repeat split; try lia. forall_pieces. }
  destruct (list_models env _) as [[names [e|]]|e].
  - rewrite vbind_print. unfold vbind at 1. rewrite print_names_run.
    unfold vraise. rewrite vbind_print. unfold vret.
    eexists. split; [by rewrite <- !app_assoc|].
    destruct (observe_printed_names names) as (Ha & Hc & Hf & _).
    rewrite !attempts_app, !calls_app, !firestore_writes_app, Ha, Hc, Hf. cbn.
    repeat split; try lia. forall_pieces.
  - rewrite vbind_print. unfold vbind at 1. rewrite print_names_run.
    unfold vret. eexists. split; [by rewrite <- !app_assoc|].
    destruct (observe_printed_names names) as (Ha & Hc & Hf & _).
    rewrite !attempts_app, !calls_app, !firestore_writes_app, Ha, Hc, Hf. cbn.
    repeat split; try lia. forall_pieces.
  - rewrite vbind_print. unfold vret.
    eexists. split; [by rewrite <- !app_assoc|].
    cbn. repeat split; try lia. forall_pieces.
Qed.

(** *** [validate_gemini_api_key] *)

Lemma validate_run model_name h :
  let h1 := h ++ [VPrint "Attempting to validate Gemini API key..."] in
  exists evs d,
    validate_gemini_api_key env model_name h = (Returned d, h ++ evs) /\
    firestore_writes evs = [] /\
    Forall no_initialize evs /\
    ((is_set (GEMINI_API_KEY env) = false /\
      calls evs = [] /\
      d = failure_result "API key not found in environment variables"
            (RStr "Missing GEMINI_API_KEY"))
     \/
     (is_set (GEMINI_API_KEY env) = true /\
      exists e,
        configure env h1 = Some e /\
        calls evs = [VConfigure (Some e)] /\
        d = failure_result "API key validation failed" (RStr e))
     \/
     (is_set (GEMINI_API_KEY env) = true /\
      configure env h1 = None /\
      tried (models_to_try model_name (listed_after env (h1 ++ [VConfigure None])))
            None (attempts evs) d /\
      (is_set model_name = true ->
       length (calls evs) = 1 + length (attempts evs)))).
Proof.
  cbv zeta. unfold validate_gemini_api_key, vtry.
  destruct (is_set (GEMINI_API_KEY env)) eqn:Hkey; cbn [negb].
  2:{ rewrite vbind_print. unfold vret. eexists _, _. split; [reflexivity|].
      split; [done|]. split; [forall_pieces|].
      left. done. }
  rewrite vbind_print. unfold vbind at 1, genai_configure.
  destruct (configure env _) as [e|] eqn:Hconf.
  { rewrite vbind_print. unfold vbind at 1.
    destruct (contains "api key not valid" (lower e) || contains "invalid" (lower e)
              || contains "unauthorized" (lower e)).
    - unfold vprint, vemit, vret. eexists _, _.
      split; [by rewrite <- !app_assoc|].
      split; [done|]. split; [forall_pieces|].
      right; left. split; [done|]. exists e. done.
    - unfold vret. eexists _, _.
      split; [by rewrite <- !app_assoc|].
      split; [done|]. split; [forall_pieces|].
      right; left. split; [done|]. exists e. done. }
  set (h2 := (h ++ [VPrint "Attempting to validate Gemini API key..."]) ++
             [VConfigure None]).
  assert (Hlisted : forall k : list string -> VM (list string),
            exists evs1,
              vbind (list_available_models env) k h2 =
              k (listed_after env h2) (h2 ++ evs1) /\
              attempts evs1 = [] /\ firestore_writes evs1 = [] /\
              Forall no_initialize evs1).
  { intros k. destruct (list_available_models_run h2)
      as (evs1 & Hrun & Ha1 & Hf1 & _ & Hn1).
    exists evs1. by rewrite (vbind_run _ _ _ _ _ Hrun). }
  assert (Hloop : forall (models : list string) evs1,
            attempts evs1 = [] -> firestore_writes evs1 = [] ->
            Forall no_initialize evs1 ->
            exists evs d,
              try_models env models None (h2 ++ evs1) = (Returned d, h ++ evs) /\
              firestore_writes evs = [] /\ Forall no_initialize evs /\
              tried models None (attempts evs) d /\
              (evs1 = [] -> length (calls evs) = 1 + length (attempts evs))).
  { intros models evs1 Ha1 Hf1 Hn1.
    destruct (try_models_run models None (h2 ++ evs1))
      as (evs2 & d & -> & Ht & Hc & Hf & Hn).
    eexists _, d. unfold h2. split; [by rewrite <- !app_assoc|].
    rewrite !firestore_writes_app, !attempts_app, Hf1, Hf, Ha1. cbn.
    split; [done|]. split; [forall_pieces|].
    split; [exact Ht|]. intros ->. rewrite !calls_app. cbn. by rewrite Hc. }
  assert (Hfinish : forall (models : list string) evs1,
            attempts evs1 = [] -> firestore_writes evs1 = [] ->
            Forall no_initialize evs1 ->
            models = models_to_try model_name (listed_after env h2) ->
            (is_set model_name = true -> evs1 = []) ->
            exists evs d,
              (let (o, h') := try_models env models None (h2 ++ evs1) in
               match o with
               | Returned a => (Returned a, h')
               | Raised e =>
                   (vprint ("Error validating Gemini API key: " +:+ e) ;;
                    (if contains "api key not valid" (lower e)
                        || contains "invalid" (lower e)
                        || contains "unauthorized" (lower e)
                     then vprint
                            "Your API key appears to be invalid or has insufficient permissions."
                     else vret tt) ;;
                    vret [("success", RBool false);
                          ("message", RStr "API key validation failed");
                          ("error", RStr e)])%script h'
               end) = (Returned d, h ++ evs) /\
              firestore_writes evs = [] /\ Forall no_initialize evs /\
              tried (models_to_try model_name (listed_after env h2)) None
                    (attempts evs) d /\
              (is_set model_name = true ->
               length (calls evs) = 1 + length (attempts evs))).
  { intros models evs1 Ha1 Hf1 Hn1 -> Hexp.
    destruct (Hloop (models_to_try model_name (listed_after env h2)) evs1 Ha1 Hf1 Hn1)
      as (evs & d & -> & Hf & Hn & Ht & Hc).
    exists evs, d. repeat split; try done. intros Hs. apply Hc. by apply Hexp. }
  destruct model_name as [[|c name]|].
  - unfold vbind at 1.
    destruct (Hlisted (fun available_models =>
                match available_models with
                | [] => vret FALLBACK_MODELS
                | _ :: _ => vret available_models
                end)) as (evs1 & -> & Ha1 & Hf1 & Hn1).
    destruct (Hfinish (models_to_try (Some "") (listed_after env h2)) evs1
                Ha1 Hf1 Hn1 eq_refl ltac:(done))
      as (evs & d & Hrun & Hf & Hn & Ht & Hc).
    exists evs, d. split.
    { rewrite <- Hrun. unfold models_to_try, vret.
      by destruct (listed_after env h2). }
    split; [done|]. split; [done|]. right; right. done.
  - destruct (Hfinish [String c name] [] eq_refl eq_refl ltac:(constructor)
                eq_refl ltac:(done))
      as (evs & d & Hrun & Hf & Hn & Ht & Hc).
    exists evs, d. split.
    { rewrite <- Hrun. unfold vbind at 1, vret. by rewrite app_nil_r. }
    split; [done|]. split; [done|]. right; right. done.
  - unfold vbind at 1.
    destruct (Hlisted (fun available_models =>
                match available_models with
                | [] => vret FALLBACK_MODELS
                | _ :: _ => vret available_models
                end)) as (evs1 & -> & Ha1 & Hf1 & Hn1).
    destruct (Hfinish (models_to_try None (listed_after env h2)) evs1
                Ha1 Hf1 Hn1 eq_refl ltac:(done))
      as (evs & d & Hrun & Hf & Hn & Ht & Hc).
    exists evs, d. split.
    { rewrite <- Hrun. unfold models_to_try, vret.
      by destruct (listed_after env h2). }
    split; [done|]. split; [done|]. right; right. done.
Qed.

(** *** [check_environment_variables], [initialize_firebase], [main] *)

Lemma init_failures_app l1 l2 :
  init_failures (l1 ++ l2) = init_failures l1 ++ init_failures l2.
Proof. apply omap_app. Qed.

Lemma no_initialize_failures evs :
  Forall no_initialize evs -> init_failures evs = [].
Proof.
  induction 1 as [|e evs He _ IH]; [done|].
  unfold init_failures in *. cbn. rewrite IH.
  destruct e as [| | | |u [err|]|]; try done. by destruct (He u (Some err)).
Qed.

Lemma check_environment_variables_run h :
  exists line,
    check_environment_variables env h =
    (Returned (is_set (GEMINI_API_KEY env) && is_set (FIREBASE_DATABASE_URL env)),
     h ++ [VPrint line]) /\
    (missing_vars env <> [] ->
     line = "Warning: The following environment variables are missing: " +:+
            String.concat ", " (missing_vars env)).
Proof.
  unfold check_environment_variables, missing_vars.
  destruct (is_set (GEMINI_API_KEY env)), (is_set (FIREBASE_DATABASE_URL env));
    cbn; eexists; (split; [reflexivity|]); done.
Qed.

Lemma initialize_firebase_run h :
  exists evs b,
    initialize_firebase env h = (Returned b, h ++ evs) /\
    attempts evs = [] /\ firestore_writes evs = [] /\
    (b = true <-> init_failures evs = []) /\
    length (calls evs) <= 1.
Proof.
  unfold initialize_firebase, vtry. unfold vbind at 1.
  destruct (firebase_apps env h); cbn [negb].
  - rewrite vbind_print. unfold vret. eexists _, _.
    split; [by rewrite <- ?app_assoc|]. cbn. repeat split; try done. lia.
  - destruct (initialize_app env h) as [e|].
    + rewrite vbind_print. unfold vret. eexists _, _.
      split; [by rewrite <- ?app_assoc|]. cbn. repeat split; try done.
    + rewrite vbind_print. unfold vret. eexists _, _.
      split; [by rewrite <- ?app_assoc|]. cbn. repeat split; try done.
Qed.

(** Every result of [validate_gemini_api_key] has one of the two shapes. *)
Lemma validate_shape model_name h :
  exists evs d,
    validate_gemini_api_key env model_name h = (Returned d, h ++ evs) /\
    firestore_writes evs = [] /\ Forall no_initialize evs /\
    ((exists errs name text,
        d = success_result name text /\
        attempts evs = errs ++ [(name, Returned text)] /\ Forall failed errs) \/
     (exists message error,
        d = failure_result message error /\ Forall failed (attempts evs))).
Proof.
  destruct (validate_run model_name h) as (evs & d & Hrun & Hf & Hn & Hcase).
  exists evs, d. split; [done|]. split; [done|]. split; [done|].
  destruct Hcase as [(_ & Hc & ->)|[(_ & e & _ & Hc & ->)|(_ & _ & Ht & _)]].
  - right. eexists _, _. split; [done|].
    assert (attempts evs = []) as ->; [|done].
    clear -Hc. induction evs as [|[] evs IH]; try done; by apply IH.
  - right. eexists _, _. split; [done|].
    assert (attempts evs = []) as ->; [|done].
    clear -Hc. induction evs as [|[] evs IH]; cbn in *; try done.
    + by apply IH.
    + injection Hc as _ Hc. clear -Hc.
      induction evs as [|[] evs IH]; cbn in *; try done. by apply IH.
  - destruct (tried_shape _ _ _ _ Ht) as [(name & text & ->)|(m & er & ->)].
    + left. destruct (tried_success _ _ _ _ Ht eq_refl)
        as (errs & n & t & rest & Ha & Hfail & _ & Hd).
      injection Hd as -> ->. by exists errs, n, t.
    + right. eexists _, _. split; [done|].
      by destruct (tried_failure _ _ _ _ Ht ltac:(done)).
Qed.

Lemma main_run h :
  exists evs,
    main env h = (Returned tt, h ++ evs) /\
    (is_set (GEMINI_API_KEY env) && is_set (FIREBASE_DATABASE_URL env) = false ->
     calls evs = [] /\ length evs = 2) /\
    (firestore_writes evs = [] \/
     exists name text,
       firestore_writes evs = [(RStr name, RStr text)] /\
       last (attempts evs) = Some (name, Returned text) /\
       init_failures evs = []).
Proof.
  unfold main.
  destruct (check_environment_variables_run h) as (line & Hcheck & _).
  rewrite (vbind_run _ _ _ _ _ Hcheck).
  destruct (is_set (GEMINI_API_KEY env) && is_set (FIREBASE_DATABASE_URL env));
    cbn [negb].
  2:{ eexists. split; [unfold vprint, vemit; by rewrite <- ?app_assoc|].
      split; [done|]. by left. }
  destruct (initialize_firebase_run (h ++ [VPrint line]))
    as (evs1 & b & Hinit & Ha1 & Hf1 & Hb & _).
  rewrite (vbind_run _ _ _ _ _ Hinit).
  destruct (list_available_models_run ((h ++ [VPrint line]) ++ evs1))
    as (evs2 & Hlist & Ha2 & Hf2 & _ & Hn2).
  rewrite (vbind_run _ _ _ _ _ Hlist).
  destruct (validate_shape None (((h ++ [VPrint line]) ++ evs1) ++ evs2))
    as (evs3 & d & Hval & Hf3 & Hn3 & Hshape).
  rewrite (vbind_run _ _ _ _ _ Hval).
  destruct Hshape as [(errs & name & text & -> & Ha3 & Hfail)
                     |(message & error & -> & Hfail)].
  - unfold dict_item. cbn [dict_get success_result String.eqb Ascii.eqb Bool.eqb].
    unfold vbind at 1, vret. cbn [truthy_rval].
    unfold vbind at 1, vret. rewrite vbind_print.
    destruct b.
    + unfold vtry, store_result, vbind at 1.
      destruct (firestore_set env _) as [e|];
        (eexists; split; [unfold vprint, vemit; by rewrite <- ?app_assoc|];
         split; [done|]; right; exists name, text;
         rewrite !firestore_writes_app, !attempts_app, !init_failures_app,
           Hf1, Hf2, Hf3, Ha1, Ha2, Ha3,
           (no_initialize_failures _ Hn2), (no_initialize_failures _ Hn3),
           (proj1 Hb eq_refl);
         cbn; rewrite ?app_nil_r; split; [done|]; split; [|done];
         by rewrite last_snoc).
    + eexists. split; [unfold vret; by rewrite <- ?app_assoc|].
      split; [done|]. left.
      rewrite !firestore_writes_app, Hf1, Hf2, Hf3. done.
  - unfold dict_item. cbn [dict_get failure_result String.eqb Ascii.eqb Bool.eqb].
    unfold vbind at 1, vret. cbn [truthy_rval].
    rewrite !vbind_print. unfold vprint, vemit.
    eexists. split; [by rewrite <- ?app_assoc|].
    split; [done|]. left.
    rewrite !firestore_writes_app, Hf1, Hf2, Hf3. done.
Qed.

End ValidationFacts.

(** *** Properties of the script *)

(** X16: [check_environment_variables] returns [True] exactly when both
    variables are set and non-empty (an empty value counts as missing),
    prints one line and calls no service; the warning names exactly the
    missing variables. *)
Theorem environment_check_requires_both (env : Validation.VEnv)
    (h : list Validation.vevent) :
  let r := Validation.check_environment_variables env h in
  let key := Validation.is_set (Validation.GEMINI_API_KEY env) in
  let url := Validation.is_set (Validation.FIREBASE_DATABASE_URL env) in
  fst r = Returned (key && url) /\
  Validation.calls (Validation.added h (snd r)) = [] /\
  length (Validation.added h (snd r)) = 1 /\
  Validation.is_set (Some "") = false /\
  (forall name,
     name ∈ Validation.missing_vars env <->
     (name = "GEMINI_API_KEY" /\ key = false) \/
     (name = "FIREBASE_DATABASE_URL" /\ url = false)).
Proof.
  cbv zeta.
  destruct (check_environment_variables_run env h) as (line & -> & _).
  cbn [fst snd]. rewrite added_app.
  split; [done|]. split; [done|]. split; [done|]. split; [done|].
  intros name. unfold Validation.missing_vars.
  destruct (Validation.is_set (Validation.GEMINI_API_KEY env)),
           (Validation.is_set (Validation.FIREBASE_DATABASE_URL env));
    cbn; rewrite ?elem_of_cons, ?elem_of_nil; intuition (discriminate || auto).
Qed.

(** X17: [list_available_models] never raises and never tries a model.
    It returns names only from a listing that ran to its end: when
    [configure] or the listing raises, or the listing stops with an exception
    after yielding some names, the result is the empty list. *)
Theorem listing_is_all_or_nothing (env : Validation.VEnv)
    (h : list Validation.vevent) :
  let h1 := h ++ [Validation.VPrint "Listing available models..."] in
  exists names evs,
    Validation.list_available_models env h = (Returned names, h ++ evs) /\
    Validation.attempts evs = [] /\
    names =
      match Validation.configure env h1 with
      | Some _ => []
      | None =>
          match Validation.list_models env (h1 ++ [Validation.VConfigure None]) with
          | Returned (listed, None) => listed
          | Returned (_, Some _) | Raised _ => []
          end
      end.
Proof.
  cbv zeta.
  destruct (list_available_models_run env h) as (evs & Hrun & Ha & _).
  exists (Validation.listed_after env h), evs. split; [done|]. split; [done|].
  unfold Validation.listed_after. destruct (Validation.configure env _); [done|].
  by destruct (Validation.list_models env _) as [[names [e|]]|e].
Qed.

(** X18: without an API key (unset or empty) [validate_gemini_api_key]
    calls no service at all, whatever model name it is given, and returns the
    failure result that says the key is missing. *)
Theorem validation_without_key_calls_nothing (env : Validation.VEnv)
    (model_name : option string) (h : list Validation.vevent) :
  Validation.is_set (Validation.GEMINI_API_KEY env) = false ->
  let r := Validation.validate_gemini_api_key env model_name h in
  fst r =
    Returned (Validation.failure_result "API key not found in environment variables"
                (Validation.RStr "Missing GEMINI_API_KEY")) /\
  Validation.calls (Validation.added h (snd r)) = [].
Proof.
  intros Hkey. cbv zeta.
  destruct (validate_run env model_name h) as (evs & d & -> & _ & _ & Hcase).
  cbn [fst snd]. rewrite added_app.
  destruct Hcase as [(_ & Hc & ->)|[(Hk & _)|(Hk & _)]]; try congruence. done.
Qed.

Lemma validation_without_key_witness :
  Validation.is_set (Validation.GEMINI_API_KEY keyless_env) = false /\
  Validation.calls
    (Validation.added []
       (snd (Validation.validate_gemini_api_key keyless_env (Some "gemini-pro") [])))
  = [].
Proof.
  split; [reflexivity|].
  apply (validation_without_key_calls_nothing keyless_env (Some "gemini-pro") []).
  reflexivity.
Defined.

(** X19: [validate_gemini_api_key] never raises and never writes to
    Firestore.  A success result names the first model that answered, with
    its text: every model tried before it failed and none is tried after it.
    A failure result means that every test request made has failed. *)
Theorem validation_reports_first_working_model (env : Validation.VEnv)
    (model_name : option string) (h : list Validation.vevent) :
  exists evs d,
    Validation.validate_gemini_api_key env model_name h = (Returned d, h ++ evs) /\
    Validation.firestore_writes evs = [] /\
    ((Validation.dict_get "success" d = Some (Validation.RBool true) /\
      exists errs name text,
        Validation.attempts evs = errs ++ [(name, Returned text)] /\
        Forall Validation.failed errs /\
        Validation.dict_get "model" d = Some (Validation.RStr name) /\
        Validation.dict_get "response" d = Some (Validation.RStr text))
     \/
     (Validation.dict_get "success" d = Some (Validation.RBool false) /\
      Forall Validation.failed (Validation.attempts evs) /\
      is_Some (Validation.dict_get "error" d))).
Proof.
  destruct (validate_shape env model_name h)
    as (evs & d & Hrun & Hf & _ & Hshape).
  exists evs, d. split; [done|]. split; [done|].
  destruct Hshape as [(errs & name & text & -> & Ha & Hfail)
                     |(message & error & -> & Hfail)].
  - left. split; [done|]. by exists errs, name, text.
  - right. repeat split; try done; by eexists.
Qed.

Lemma tried_single name last_error att d :
  Validation.tried [name] last_error att d ->
  exists r, att = [(name, r)].
Proof.
  intros Ht. inversion Ht as [| |? ? ? e att' ? Ht']; subst; [by eexists|].
  inversion Ht'; subst. by eexists.
Qed.

(** X20: given a model name, with the key set and [configure] passing,
    [validate_gemini_api_key] makes exactly one test request, to that model,
    and does not list the models: its only calls are [configure] and the
    request. *)
Theorem named_model_is_the_only_one_tried (env : Validation.VEnv)
    (c : ascii) (name : string) (h : list Validation.vevent) :
  Validation.is_set (Validation.GEMINI_API_KEY env) = true ->
  Validation.configure env
    (h ++ [Validation.VPrint "Attempting to validate Gemini API key..."]) = None ->
  let r := Validation.validate_gemini_api_key env (Some (String c name)) h in
  let evs := Validation.added h (snd r) in
  (exists outcome, Validation.attempts evs = [(String c name, outcome)]) /\
  length (Validation.calls evs) = 2.
Proof.
  intros Hkey Hconf. cbv zeta.
  destruct (validate_run env (Some (String c name)) h)
    as (evs & d & -> & _ & _ & Hcase).
  cbn [snd]. rewrite added_app.
  destruct Hcase as [(Hk & _)|[(_ & e & He & _)|(_ & _ & Ht & Hc)]];
    try congruence.
  destruct (tried_single _ _ _ _ Ht) as (r & Hr).
  split; [by exists r|]. rewrite Hc by done. by rewrite Hr.
Qed.

Lemma named_model_witness :
  let r := Validation.validate_gemini_api_key script_env (Some "gemini-pro") [] in
  Validation.is_set (Validation.GEMINI_API_KEY script_env) = true /\
  Validation.attempts (Validation.added [] (snd r)) =
    [("gemini-pro", Raised "404 model not found")] /\
  length (Validation.calls (Validation.added [] (snd r))) = 2.
Proof.
  cbv zeta. split; [reflexivity|].
  destruct (named_model_is_the_only_one_tried script_env "g" "emini-pro" []
              eq_refl eq_refl) as ((outcome & Ha) & Hc).
  split; [|exact Hc]. reflexivity.
Defined.

(** X21: given no model name, with the key set and [configure] passing,
    the models are tried in the order of the listing, or of the five built-in
    names when the listing is empty or failed.  Trying stops at the first
    model that answers; when none does, every model was tried and the
    [error] of the result is the error of the last one. *)
Theorem unnamed_validation_tries_listing_or_fallback (env : Validation.VEnv)
    (h : list Validation.vevent) :
  let h1 := h ++ [Validation.VPrint "Attempting to validate Gemini API key..."] in
  Validation.is_set (Validation.GEMINI_API_KEY env) = true ->
  Validation.configure env h1 = None ->
  let listed := Validation.listed_after env (h1 ++ [Validation.VConfigure None]) in
  let models :=
    match listed with _ :: _ => listed | [] => Validation.FALLBACK_MODELS end in
  let r := Validation.validate_gemini_api_key env None h in
  let att := Validation.attempts (Validation.added h (snd r)) in
  exists d,
    fst r = Returned d /\
    (fst <$> att) `prefix_of` models /\
    (Validation.dict_get "success" d <> Some (Validation.RBool true) ->
     fst <$> att = models /\
     exists name e,
       last att = Some (name, Raised e) /\
       Validation.dict_get "error" d = Some (Validation.RStr e)).
Proof.
  cbv zeta. intros Hkey Hconf.
  destruct (validate_run env None h) as (evs & d & -> & _ & _ & Hcase).
  cbn [fst snd]. rewrite added_app. exists d. split; [done|].
  destruct Hcase as [(Hk & _)|[(_ & e & He & _)|(_ & _ & Ht & _)]];
    try congruence.
  unfold Validation.models_to_try in Ht.
  set (models := match Validation.listed_after env _ with
                 | [] => Validation.FALLBACK_MODELS
                 | _ :: _ => _
                 end) in *.
  assert (Hne : models <> []).
  { unfold models. by destruct (Validation.listed_after env _). }
  assert (Validation.dict_get "success" d = Some (Validation.RBool true) \/
          Validation.dict_get "success" d <> Some (Validation.RBool true))
    as [Hs|Hs].
  { destruct (tried_shape _ _ _ _ Ht) as [(n & t & ->)|(m & er & ->)];
      [by left|by right]. }
  - destruct (tried_success _ _ _ _ Ht Hs)
      as (errs & name & text & rest & -> & _ & Hm & _).
    split; [|done]. rewrite Hm, fmap_app. cbn. exists rest.
    by rewrite <- app_assoc.
  - destruct (tried_failure _ _ _ _ Ht Hs) as (Hfail & Hm & ->).
    split; [by rewrite Hm|]. intros _. split; [done|].
    destruct (last (Validation.attempts evs)) as [[name [text|e]]|] eqn:El.
    + apply last_Some in El as (l' & El). rewrite El in Hfail.
      apply Forall_app in Hfail as [_ Hfail]. by inversion Hfail.
    + by exists name, e.
    + apply last_None in El. rewrite El in Hm. by destruct Hne.
Qed.

Lemma unnamed_validation_witness :
  let r := Validation.validate_gemini_api_key script_env None [] in
  Validation.is_set (Validation.GEMINI_API_KEY script_env) = true /\
  (fst <$> Validation.attempts (Validation.added [] (snd r)))
    `prefix_of` ["models/gemini-pro"; "models/gemini-1.5-pro"].
Proof.
  cbv zeta. split; [reflexivity|].
  destruct (unnamed_validation_tries_listing_or_fallback script_env []
              eq_refl eq_refl) as (d & _ & Hp & _).
  exact Hp.
Defined.

(** X22: when a required variable is missing, [main] stops after the
    check: it prints the warning and the request to set the variables and
    calls neither Firebase nor Gemini. *)
Theorem main_stops_on_missing_variable (env : Validation.VEnv)
    (h : list Validation.vevent) :
  Validation.is_set (Validation.GEMINI_API_KEY env) &&
  Validation.is_set (Validation.FIREBASE_DATABASE_URL env) = false ->
  let r := Validation.main env h in
  fst r = Returned tt /\
  Validation.calls (Validation.added h (snd r)) = [] /\
  last (Validation.added h (snd r)) =
    Some (Validation.VPrint
            "Please set all required environment variables before running this script").
Proof.
  intros Hmissing. cbv zeta. unfold Validation.main.
  destruct (check_environment_variables_run env h) as (line & Hcheck & _).
  rewrite (vbind_run _ _ _ _ _ Hcheck), Hmissing. cbn [negb].
  unfold Validation.vprint, Validation.vemit. cbn [fst snd].
  rewrite <- app_assoc, added_app. done.
Qed.

Lemma main_stops_witness :
  Validation.is_set (Validation.GEMINI_API_KEY keyless_env) &&
  Validation.is_set (Validation.FIREBASE_DATABASE_URL keyless_env) = false /\
  Validation.calls (Validation.added [] (snd (Validation.main keyless_env []))) = [].
Proof.
  split; [reflexivity|].
  apply (main_stops_on_missing_variable keyless_env [] eq_refl).
Defined.

(** X23: [main] never raises and writes to Firestore at most once, and
    only a validated result: the write carries the model and the text of the
    last test request, which succeeded, and happens only when no
    [initialize_app] call has failed. *)
Theorem main_stores_only_a_validated_result (env : Validation.VEnv)
    (h : list Validation.vevent) :
  let r := Validation.main env h in
  let evs := Validation.added h (snd r) in
  fst r = Returned tt /\
  (Validation.firestore_writes evs = [] \/
   exists name text,
     Validation.firestore_writes evs =
       [(Validation.RStr name, Validation.RStr text)] /\
     last (Validation.attempts evs) = Some (name, Returned text) /\
     Validation.init_failures evs = []).
Proof.
  cbv zeta. destruct (main_run env h) as (evs & -> & _ & Hw).
  cbn [fst snd]. by rewrite added_app.
Qed.
